(** * Warm-start cache of the augmented Gurobi interface

    A shallow embedding of [switch_model/utilities/gurobi_aug.py]: the
    NumPy-backed name/value stores ([PicklableData], [CBasis], [VBasis]),
    the pickled [WarmStartData] bundle, and the two solver hooks
    [GurobiAugmented._warm_start] and [GurobiAugmented._save_warm_start],
    followed by the properties of the warm-start specification that can be
    stated over them. *)

From Stdlib Require Import ZArith String Ascii List Lia.
From Stdlib Require PrimFloat.
From stdpp Require Import base option list strings gmap.

Local Open Scope Z_scope.
Local Open Scope string_scope.
Local Open Scope list_scope.

(** IEEE 754 binary64 numbers: Python's [float] and NumPy's [float64]. *)
Abbreviation float := PrimFloat.float.

(** ** Python exceptions and outcomes *)

(** The exceptions the modelled code can meet. *)
Inductive exn : Type :=
| KeyError (key : string)
| IndexError
| AttributeError (attr : string)
| OverflowError
| TypeError
| FileNotFoundError (path : string)
| UnpicklingError
| Exception (msg : string).

(** A call on a mutable object either returns a value or raises; in both
    cases the object is left in some state. *)
Inductive outcome (S A : Type) : Type :=
| Return (a : A) (s : S)
| Raise (e : exn) (s : S).
Arguments Return {S A} a s.
Arguments Raise {S A} e s.

Definition state_of {S A} (o : outcome S A) : S :=
  match o with Return _ s => s | Raise _ s => s end.

Definition returns {S A} (o : outcome S A) : Prop :=
  match o with Return _ _ => True | Raise _ _ => False end.

Definition raises {S A} (o : outcome S A) : Prop :=
  match o with Return _ _ => False | Raise _ _ => True end.

(** Result of the call with the value post-processed by the caller. *)
Definition map_value {S A B} (f : A -> B) (o : outcome S A) : outcome S B :=
  match o with Return a s => Return (f a) s | Raise e s => Raise e s end.

(** Result of the call seen from an enclosing object. *)
Definition map_state {S T A} (f : S -> T) (o : outcome S A) : outcome T A :=
  match o with Return a s => Return a (f s) | Raise e s => Raise e (f s) end.

(** The two [warnings.warn] calls of the module: the one of
    [__getstate__], and the one that closes [_warm_start], whose message
    is built from [error] and [error_count - 1]. *)
Inductive Warning : Type :=
| PicklingMoreThanNecessary
| NotFoundInWarmStart (error : exn) (others : Z).

(** ** The NumPy runtime

    [np.empty] hands out uninitialised memory, and item assignment converts
    the assigned Python number to the array's dtype.  Whether an
    out-of-range Python integer assigned into a [uint8] array wraps around
    or raises [OverflowError] depends on the NumPy release. *)
Record NumPy : Type := {
  strict_cast : bool;
  empty_uint8 : nat -> Z;
  empty_bool : nat -> bool;
  empty_float : nat -> float
}.

Module np.

(** [np.empty(n, dtype)]: [n] cells of whatever the memory held. *)
Definition empty {V} (uninit : nat -> V) (n : nat) : list V :=
  uninit <$> seq 0 n.

(** Assignment of a Python int into a [uint8] cell. *)
Definition uint8 (rt : NumPy) (z : Z) : exn + Z :=
  if decide (0 <= z <= 255) then inr z
  else if strict_cast rt then inl OverflowError
  else inr (z mod 256).

(** Assignment of a Python int into a [bool] cell: its truth value. *)
Definition bool (z : Z) : exn + bool := inr (negb (z =? 0)%Z).

(** Assignment of a Python float into a [float64] cell. *)
Definition float64 (f : float) : exn + float := inr f.

(** Reading an element of a fixed-width unicode array drops the
    trailing NUL characters of the stored string. *)
Fixpoint rstrip_nul (s : string) : string :=
  match s with
  | EmptyString => EmptyString
  | String c s' =>
      match rstrip_nul s' with
      | EmptyString =>
          if Ascii.eqb c Ascii.zero then EmptyString else String c EmptyString
      | r => String c r
      end
  end.

(** [np.array(names)] for a list of [str]. *)
Definition array (names : list string) : list string :=
  rstrip_nul <$> names.

End np.

(** ** PicklableData *)

Module PicklableData.

(** Attributes of an instance.  [next_index] and [n] are set by
    [__init__] only: an instance rebuilt by [__setstate__] lacks them. *)
Record t (V : Type) : Type := mk {
  _names : list string;
  _vals : list V;
  _dict : option (gmap string V);
  next_index : option nat;
  n : option nat
}.
Arguments mk {V}.
Arguments _names {V}.
Arguments _vals {V}.
Arguments _dict {V}.
Arguments next_index {V}.
Arguments n {V}.

(** What [__getstate__] returns and [__setstate__] receives. *)
Definition state (V : Type) : Type := (list string * list V)%type.

Section methods.
Context {R V : Type}.
(** Conversion of an assigned value to [val_dtype]. *)
Variable val_dtype : R -> exn + V.

Definition __init__ (uninit : nat -> V) (n : nat) : t V :=
  {| _names := replicate n "";
     _vals := np.empty uninit n;
     _dict := None;
     next_index := Some 0%nat;
     n := Some n |}.

Definition save_component (self : t V) (name : string) (val : R)
  : outcome (t V) unit :=
  match next_index self with
  | None => Raise (AttributeError "next_index") self
  | Some i =>
      if decide (i < length (_names self))%nat then
        let self1 :=
          mk (<[i := name]> (_names self)) (_vals self) (_dict self)
             (next_index self) (n self) in
        if decide (i < length (_vals self))%nat then
          match val_dtype val with
          | inl e => Raise e self1
          | inr v =>
              Return tt
                (mk (_names self1) (<[i := v]> (_vals self1)) (_dict self1)
                    (Some (S i)) (n self1))
          end
        else Raise IndexError self1
      else Raise IndexError self
  end.

(** The dict comprehension over [zip(self._names, self._vals)]: a
    later pair overrides an earlier one with the same name. *)
Definition _get_dict (self : t V) : gmap string V :=
  foldl (fun d nv => <[nv.1 := nv.2]> d) ∅ (zip (_names self) (_vals self)).

(** [self._dict[name]] *)
Definition getitem (d : gmap string V) (name : string) (self : t V)
  : outcome (t V) V :=
  match d !! name with
  | Some v => Return v self
  | None => Raise (KeyError name) self
  end.

Definition get_component (self : t V) (name : string) : outcome (t V) V :=
  match _dict self with
  | None =>
      let d := _get_dict self in
      getitem d name
        (mk (_names self) (_vals self) (Some d) (next_index self) (n self))
  | Some d => getitem d name self
  end.

(** [__getstate__]: the pickled state, preceded by the warnings it
    emits. *)
Definition __getstate__ (self : t V) : exn + (list Warning * state V) :=
  match next_index self, n self with
  | Some i, Some n =>
      inr (if decide (i = n) then [] else [PicklingMoreThanNecessary],
           (np.array (_names self), _vals self))
  | None, _ => inl (AttributeError "next_index")
  | _, None => inl (AttributeError "n")
  end.

(** [__setstate__] on the bare instance the unpickler allocates. *)
Definition __setstate__ (st : state V) : t V :=
  {| _names := st.1; _vals := st.2; _dict := None;
     next_index := None; n := None |}.

End methods.

End PicklableData.

(** ** CBasis and VBasis *)

Module CBasis.

Definition __init__ (rt : NumPy) (n : nat) : PicklableData.t bool :=
  PicklableData.__init__ (empty_bool rt) n.

(** Inherited unchanged; the array's dtype is [bool]. *)
Definition save_component (self : PicklableData.t bool) (name : string)
  (val : Z) : outcome (PicklableData.t bool) unit :=
  PicklableData.save_component np.bool self name val.

(** [-1 if ... else 0] *)
Definition decode (b : bool) : Z := if b then -1 else 0.

Definition get_component (self : PicklableData.t bool) (name : string)
  : outcome (PicklableData.t bool) Z :=
  map_value decode (PicklableData.get_component self name).

End CBasis.

Module VBasis.

Definition __init__ (rt : NumPy) (n : nat) : PicklableData.t Z :=
  PicklableData.__init__ (empty_uint8 rt) n.

(** What ends up in the [uint8] cell for [val]: [val * -1], converted. *)
Definition encode (rt : NumPy) (val : Z) : exn + Z := np.uint8 rt (val * -1).

Definition save_component (rt : NumPy) (self : PicklableData.t Z)
  (name : string) (val : Z) : outcome (PicklableData.t Z) unit :=
  PicklableData.save_component (np.uint8 rt) self name (val * -1).

(** [int(...) * -1] *)
Definition decode (u : Z) : Z := u * -1.

Definition get_component (self : PicklableData.t Z) (name : string)
  : outcome (PicklableData.t Z) Z :=
  map_value decode (PicklableData.get_component self name).

End VBasis.

(** ** WarmStartData and its pickle *)

(** The object that gets pickled.  [_save_warm_start] builds it in two
    shapes only, told apart by [use_c_v_basis]: a [VBasis] with a [CBasis],
    or two [PicklableData] of floats. *)
Inductive WarmStartData : Type :=
| CVBasisData (var_data : PicklableData.t Z) (const_data : PicklableData.t bool)
| StartData (var_data const_data : PicklableData.t float).

Definition use_c_v_basis (d : WarmStartData) : bool :=
  match d with CVBasisData _ _ => true | StartData _ _ => false end.

Module pickle.

(** The pickle of a [WarmStartData]: the class of each store and the
    tuple its [__getstate__] returned. *)
Inductive pickled : Type :=
| PCVBasis (var_state : PicklableData.state Z)
           (const_state : PicklableData.state bool)
| PStart (var_state const_state : PicklableData.state float).

Inductive file : Type :=
| Pickle (p : pickled)
| NotAPickle.

Definition dumps (data : WarmStartData) : exn + (list Warning * pickled) :=
  match data with
  | CVBasisData var_data const_data =>
      match PicklableData.__getstate__ var_data with
      | inl e => inl e
      | inr (w1, vs) =>
          match PicklableData.__getstate__ const_data with
          | inl e => inl e
          | inr (w2, cs) => inr (w1 ++ w2, PCVBasis vs cs)
          end
      end
  | StartData var_data const_data =>
      match PicklableData.__getstate__ var_data with
      | inl e => inl e
      | inr (w1, vs) =>
          match PicklableData.__getstate__ const_data with
          | inl e => inl e
          | inr (w2, cs) => inr (w1 ++ w2, PStart vs cs)
          end
      end
  end.

Definition loads (p : pickled) : WarmStartData :=
  match p with
  | PCVBasis vs cs =>
      CVBasisData (PicklableData.__setstate__ vs) (PicklableData.__setstate__ cs)
  | PStart vs cs =>
      StartData (PicklableData.__setstate__ vs) (PicklableData.__setstate__ cs)
  end.

(** [with open(path, "rb") as f: pickle.load(f)] *)
Definition load (files : gmap string file) (path : string)
  : exn + WarmStartData :=
  match files !! path with
  | None => inl (FileNotFoundError path)
  | Some NotAPickle => inl UnpicklingError
  | Some (Pickle p) => inr (loads p)
  end.

End pickle.

(** ** The solver session *)

(** Attributes of Gurobi variables and constraints that the warm start
    reads ([VBasis], [X], [CBasis], [Pi]) or writes ([VBasis], [PStart],
    [CBasis], [DStart]). *)
Module GRB.

Record Var : Type := mkVar { VBasis : Z; X : float; PStart : float }.
Record Constr : Type := mkConstr { CBasis : Z; Pi : float; DStart : float }.

Definition set_VBasis (val : Z) (v : Var) : Var := mkVar val (X v) (PStart v).
Definition set_PStart (val : float) (v : Var) : Var := mkVar (VBasis v) (X v) val.
Definition set_CBasis (val : Z) (c : Constr) : Constr := mkConstr val (Pi c) (DStart c).
Definition set_DStart (val : float) (c : Constr) : Constr := mkConstr (CBasis c) (Pi c) val.

End GRB.

Module GurobiAugmented.

(** The solver object.  A Pyomo component is identified by its [name];
    the two maps keep their insertion order. *)
Record t : Type := mk {
  IsMIP : bool;
  _write_warm_start : option string;
  _read_warm_start : option string;
  _save_c_v_basis : bool;
  _pyomo_var_to_solver_var_map : list (string * GRB.Var);
  _pyomo_con_to_solver_con_map : list (string * GRB.Constr)
}.

(** What a hook can see and change: the solver object, the files, and
    the warnings issued so far. *)
Record World : Type := mkWorld {
  self : t;
  files : gmap string pickle.file;
  warned : list Warning
}.

Definition with_maps (vars : list (string * GRB.Var))
  (cons : list (string * GRB.Constr)) (w : World) : World :=
  mkWorld
    (mk (IsMIP (self w)) (_write_warm_start (self w)) (_read_warm_start (self w))
        (_save_c_v_basis (self w)) vars cons)
    (files w) (warned w).

Definition CBASIS_DEFAULT : Z := 0.
Definition VBASIS_DEFAULT : Z := 0.

(** [error] and [error_count] of [_warm_start]. *)
Record misses : Type := mkMisses { error : option exn; error_count : Z }.

(** One of the two [for] loops of [_warm_start], over the items of a
    component map, for a store [data] with lookup [get_component]. *)
Section set_attrs.
Context {S A G : Type}.
Variable get_component : S -> string -> outcome S A.
Variable setAttr : A -> G -> G.
Variable default : A.

Definition done_item (item : string * G)
  (o : outcome (list (string * G) * S * misses) unit)
  : outcome (list (string * G) * S * misses) unit :=
  map_state (fun st => (item :: st.1.1, st.1.2, st.2)) o.

Fixpoint set_attrs (items : list (string * G)) (data : S) (m : misses)
  : outcome (list (string * G) * S * misses) unit :=
  match items with
  | [] => Return tt ([], data, m)
  | (pyomo_c, gurobi_c) :: rest =>
      match get_component data pyomo_c with
      | Return val data' =>
          done_item (pyomo_c, setAttr val gurobi_c) (set_attrs rest data' m)
      | Raise (KeyError k) data' =>
          done_item (pyomo_c, setAttr default gurobi_c)
            (set_attrs rest data' (mkMisses (Some (KeyError k)) (error_count m + 1)))
      | Raise e data' => Raise e (items, data', m)
      end
  end.
End set_attrs.

(** The body of [_warm_start] after the attributes and defaults have
    been chosen. *)
Definition set_all {SV AV SC AC : Type}
  (var_get : SV -> string -> outcome SV AV) (var_attr : AV -> GRB.Var -> GRB.Var)
  (var_default : AV)
  (const_get : SC -> string -> outcome SC AC)
  (const_attr : AC -> GRB.Constr -> GRB.Constr) (const_default : AC)
  (var_data : SV) (const_data : SC) (w : World) : outcome World unit :=
  let cons := _pyomo_con_to_solver_con_map (self w) in
  match set_attrs var_get var_attr var_default
          (_pyomo_var_to_solver_var_map (self w)) var_data (mkMisses None 0) with
  | Raise e st => Raise e (with_maps st.1.1 cons w)
  | Return _ st =>
      let vars := st.1.1 in
      match set_attrs const_get const_attr const_default cons const_data st.2 with
      | Raise e st' => Raise e (with_maps vars st'.1.1 w)
      | Return _ st' =>
          let w' := with_maps vars st'.1.1 w in
          Return tt
            (mkWorld (self w') (files w')
               (warned w' ++
                match error st'.2 with
                | Some e => [NotFoundInWarmStart e (error_count st'.2 - 1)]
                | None => []
                end))
      end
  end.

Section hooks.
(** [GurobiDirect._warm_start], the MIP start of the Pyomo base class. *)
Variable GurobiDirect_warm_start : World -> outcome World unit.
Variable rt : NumPy.

Definition _warm_start (w : World) : outcome World unit :=
  if IsMIP (self w) then GurobiDirect_warm_start w
  else
    match _read_warm_start (self w) with
    | None => Raise (Exception "Must specify warm_start_in= when running solve()") w
    | Some path =>
        (* self._update() flushes pending model changes; it touches
           none of the attributes modelled here *)
        match pickle.load (files w) path with
        | inl e => Raise e w
        | inr (CVBasisData var_data const_data) =>
            set_all VBasis.get_component GRB.set_VBasis VBASIS_DEFAULT
                    CBasis.get_component GRB.set_CBasis CBASIS_DEFAULT
                    var_data const_data w
        | inr (StartData var_data const_data) =>
            set_all PicklableData.get_component GRB.set_PStart PrimFloat.zero
                    PicklableData.get_component GRB.set_DStart PrimFloat.zero
                    var_data const_data w
        end
    end.

(** One of the two [for] loops of [_save_warm_start]. *)
Fixpoint save_all {S R G : Type}
  (save_component : S -> string -> R -> outcome S unit) (getAttr : G -> R)
  (items : list (string * G)) (data : S) : outcome S unit :=
  match items with
  | [] => Return tt data
  | (pyomo_c, gurobipy_c) :: rest =>
      match save_component data pyomo_c (getAttr gurobipy_c) with
      | Return _ data' => save_all save_component getAttr rest data'
      | Raise e data' => Raise e data'
      end
  end.

(** The data objects of [_save_warm_start], filled by its two loops. *)
Definition collect (w : World) : exn + WarmStartData :=
  let vars := _pyomo_var_to_solver_var_map (self w) in
  let cons := _pyomo_con_to_solver_con_map (self w) in
  let n_var := length vars in
  let n_const := length cons in
  if _save_c_v_basis (self w) then
    match save_all (VBasis.save_component rt) GRB.VBasis vars
            (VBasis.__init__ rt n_var) with
    | Raise e _ => inl e
    | Return _ var_data =>
        match save_all CBasis.save_component GRB.CBasis cons
                (CBasis.__init__ rt n_const) with
        | Raise e _ => inl e
        | Return _ const_data => inr (CVBasisData var_data const_data)
        end
    end
  else
    match save_all (PicklableData.save_component np.float64) GRB.X vars
            (PicklableData.__init__ (empty_float rt) n_var) with
    | Raise e _ => inl e
    | Return _ var_data =>
        match save_all (PicklableData.save_component np.float64) GRB.Pi cons
                (PicklableData.__init__ (empty_float rt) n_const) with
        | Raise e _ => inl e
        | Return _ const_data => inr (StartData var_data const_data)
        end
    end.

Definition _save_warm_start (w : World) : outcome World unit :=
  match collect w with
  | inl e => Raise e w
  | inr data =>
      match _write_warm_start (self w) with
      | None => Raise TypeError w
      | Some path =>
          match pickle.dumps data with
          | inl e =>
              (* the file was opened for writing; no pickle reached it *)
              Raise e (mkWorld (self w) (<[path := pickle.NotAPickle]> (files w))
                         (warned w))
          | inr (ws, p) =>
              Return tt
                (mkWorld (self w) (<[path := pickle.Pickle p]> (files w))
                   (warned w ++ ws))
          end
      end
  end.

End hooks.

Section postsolve.
Context {Results : Type}.
(** [GurobiDirect._postsolve], which loads the solution into the Pyomo
    model and returns the results object. *)
Variable GurobiDirect_postsolve : World -> outcome World Results.
Variable rt : NumPy.

Definition _postsolve (w : World) : outcome World Results :=
  match GurobiDirect_postsolve w with
  | Raise e w1 => Raise e w1
  | Return results w1 =>
      match _write_warm_start (self w1) with
      | None => Return results w1
      | Some _ =>
          match _save_warm_start rt w1 with
          | Raise e w2 => Raise e w2
          | Return _ w2 => Return results w2
          end
      end
  end.

End postsolve.

End GurobiAugmented.

Import GurobiAugmented.

(** * Vocabulary of the properties *)

(** ** Indexes, cells and pickles *)

(** The dict that inserting the pairs [l] in order makes of [d]. *)
Definition dict_of {V} (l : list (string * V)) (d : gmap string V)
  : gmap string V :=
  foldl (fun d nv => <[nv.1 := nv.2]> d) d l.

(** The index a lookup is answered from: the cached one if there is
    one, else the one that the lookup is about to build. *)
Definition served {V} (s : PicklableData.t V) : gmap string V :=
  match PicklableData._dict s with
  | Some d => d
  | None => PicklableData._get_dict s
  end.

(** [vs] are the attributes of [items] as the dtype stores them. *)
Definition converted {R V G} (val_dtype : R -> exn + V) (getAttr : G -> R)
  (items : list (string * G)) (vs : list V) : Prop :=
  Forall2 (fun item v => val_dtype (getAttr item.2) = inr v) items vs.

(** The [uint8] cell of a variable and the [bool] cell of a constraint. *)
Definition vbasis_cell (v : GRB.Var) : Z := - GRB.VBasis v.
Definition cbasis_cell (c : GRB.Constr) : bool := negb (GRB.CBasis c =? 0)%Z.

(** The pickle of the stores of a basis capture and of a start capture. *)
Definition basis_pickle (w : World) : pickle.pickled :=
  pickle.PCVBasis
    (np.array (_pyomo_var_to_solver_var_map (self w)).*1,
     vbasis_cell <$> (_pyomo_var_to_solver_var_map (self w)).*2)
    (np.array (_pyomo_con_to_solver_con_map (self w)).*1,
     cbasis_cell <$> (_pyomo_con_to_solver_con_map (self w)).*2).

Definition start_pickle (w : World) : pickle.pickled :=
  pickle.PStart
    (np.array (_pyomo_var_to_solver_var_map (self w)).*1,
     GRB.X <$> (_pyomo_var_to_solver_var_map (self w)).*2)
    (np.array (_pyomo_con_to_solver_con_map (self w)).*1,
     GRB.Pi <$> (_pyomo_con_to_solver_con_map (self w)).*2).

Definition written (path : string) (p : pickle.pickled) (w : World) : World :=
  mkWorld (self w) (<[path := pickle.Pickle p]> (files w)) (warned w).

(** ** The effect of a restore *)

(** The items of a component map after a loop of [_warm_start] that is
    answered from [index]: the attribute of every component is set to the
    indexed value, or to [dflt] where the name is not indexed. *)
Definition restored {A G} (setAttr : A -> G -> G) (dflt : A)
  (index : gmap string A) (items : list (string * G)) : list (string * G) :=
  (fun item => (item.1, setAttr (default dflt (index !! item.1)) item.2)) <$> items.

(** The names of [items] that [index] does not hold, in loop order. *)
Definition missed {A G} (index : gmap string A) (items : list (string * G))
  : list string :=
  filter (fun nm => index !! nm = None) items.*1.

(** [error] and [error_count] after the names [missing] were missed. *)
Definition after_misses (m : misses) (missing : list string) : misses :=
  mkMisses
    (match last missing with
     | Some nm => Some (KeyError nm)
     | None => error m
     end)
    (error_count m + Z.of_nat (length missing)).

(** The warning that closes [_warm_start]. *)
Definition miss_warning (missing : list string) : list Warning :=
  match last missing with
  | Some nm => [NotFoundInWarmStart (KeyError nm) (Z.of_nat (length missing) - 1)]
  | None => []
  end.

(** The world after both loops and the closing warning. *)
Definition finished (vars : list (string * GRB.Var))
  (cons : list (string * GRB.Constr)) (missing : list string)
  (w : World) : World :=
  mkWorld (self (with_maps vars cons w)) (files w)
    (warned w ++ miss_warning missing).

(** A lookup [get] answers from [index] on every store satisfying [Inv],
    and keeps the store in [Inv]. *)
Definition answers_from {S A} (get : S -> string -> outcome S A)
  (index : gmap string A) (Inv : S -> Prop) : Prop :=
  forall data k, Inv data ->
    Inv (state_of (get data k)) /\
    get data k = match index !! k with
                 | Some v => Return v (state_of (get data k))
                 | None => Raise (KeyError k) (state_of (get data k))
                 end.

(** ** Stores, bundles and sessions in use *)

(** Gurobi's basis codes: [VBasis] is 0 (basic), -1 (at lower bound),
    -2 (at upper bound) or -3 (superbasic); [CBasis] is 0 (basic) or -1
    (nonbasic). *)
Definition variable_basis_codes : list Z := [0; -1; -2; -3].
Definition constraint_basis_codes : list Z := [0; -1].

(** The store after the lookups [ks], whatever they returned or raised. *)
Definition lookups {V} (s : PicklableData.t V) (ks : list string)
  : PicklableData.t V :=
  foldl (fun s k => state_of (PicklableData.get_component s k)) s ks.

(** A call on a store: a lookup or an append. *)
Inductive store_op (R : Type) : Type :=
| Lookup (name : string)
| Append (name : string) (val : R).
Arguments Lookup {R} name.
Arguments Append {R} name val.

Definition run_op {R V} (val_dtype : R -> exn + V) (s : PicklableData.t V)
  (op : store_op R) : PicklableData.t V :=
  match op with
  | Lookup k => state_of (PicklableData.get_component s k)
  | Append nm val => state_of (PicklableData.save_component val_dtype s nm val)
  end.

(** The names of the session that the loaded bundle does not hold:
    variables first, then constraints, each in loop order. *)
Definition missing_names (d : WarmStartData) (w : World) : list string :=
  let vars := _pyomo_var_to_solver_var_map (self w) in
  let cons := _pyomo_con_to_solver_con_map (self w) in
  match d with
  | CVBasisData vd cd =>
      missed (VBasis.decode <$> served vd) vars
      ++ missed (CBasis.decode <$> served cd) cons
  | StartData vd cd => missed (served vd) vars ++ missed (served cd) cons
  end.

(** The session after a restore from the bundle [d]. *)
Definition warm_started (d : WarmStartData) (w : World) : World :=
  let vars := _pyomo_var_to_solver_var_map (self w) in
  let cons := _pyomo_con_to_solver_con_map (self w) in
  match d with
  | CVBasisData vd cd =>
      finished
        (restored GRB.set_VBasis VBASIS_DEFAULT
           (VBasis.decode <$> served vd) vars)
        (restored GRB.set_CBasis CBASIS_DEFAULT
           (CBasis.decode <$> served cd) cons)
        (missing_names d w) w
  | StartData vd cd =>
      finished
        (restored GRB.set_PStart PrimFloat.zero (served vd) vars)
        (restored GRB.set_DStart PrimFloat.zero (served cd) cons)
        (missing_names d w) w
  end.

(** A Python number. *)
Inductive number : Type :=
| PyInt (z : Z)
| PyFloat (f : float).

Definition result_of {S A} (o : outcome S A) : exn + A :=
  match o with Return a _ => inr a | Raise e _ => inl e end.

(** [warm_start_data.var_data.get_component(name)] and
    [warm_start_data.const_data.get_component(name)], dispatched on the
    class of the store. *)
Definition var_lookup (d : WarmStartData) (name : string) : exn + number :=
  match d with
  | CVBasisData vd _ => result_of (map_value PyInt (VBasis.get_component vd name))
  | StartData vd _ =>
      result_of (map_value PyFloat (PicklableData.get_component vd name))
  end.

Definition const_lookup (d : WarmStartData) (name : string) : exn + number :=
  match d with
  | CVBasisData _ cd => result_of (map_value PyInt (CBasis.get_component cd name))
  | StartData _ cd =>
      result_of (map_value PyFloat (PicklableData.get_component cd name))
  end.

(** The value [_save_warm_start] appends for a variable and for a
    constraint: [getAttr(var_attr)] and [getAttr(const_attr)]. *)
Definition var_appended (w : World) (v : GRB.Var) : number :=
  if _save_c_v_basis (self w)
  then PyInt (GRB.VBasis v) else PyFloat (GRB.X v).

Definition const_appended (w : World) (c : GRB.Constr) : number :=
  if _save_c_v_basis (self w)
  then PyInt (GRB.CBasis c) else PyFloat (GRB.Pi c).

(** A name that a NumPy unicode array gives back as it was stored. *)
Definition numpy_exact (name : string) : Prop := np.rstrip_nul name = name.

(** ** Runtimes and sessions used as instances *)

(** A NumPy that wraps out-of-range integers, and one that rejects them. *)
Definition numpy_wrapping : NumPy :=
  {| strict_cast := false; empty_uint8 := fun _ => 170; empty_bool := fun _ => true;
     empty_float := fun _ => PrimFloat.one |}.
Definition numpy_strict : NumPy :=
  {| strict_cast := true; empty_uint8 := fun _ => 170; empty_bool := fun _ => true;
     empty_float := fun _ => PrimFloat.one |}.

(** A solved LP whose single variable reports the code -5 and whose single
    constraint reports the code 7. *)
Definition odd_codes_world : World :=
  mkWorld
    (mk false (Some "ws.pickle") None true
       [("x", GRB.mkVar (-5) PrimFloat.zero PrimFloat.zero)]
       [("c", GRB.mkConstr 7 PrimFloat.zero PrimFloat.zero)])
    ∅ [].

(** A base-class MIP start that has nothing to copy (no Pyomo variable
    carries a value): it returns normally and sets nothing. *)
Definition GurobiDirect_no_values (w : World) : outcome World unit :=
  Return tt w.

(** A MIP session configured to restore from a basis bundle. *)
Definition mip_world : World :=
  mkWorld
    (mk true None (Some "ws.pickle") false
       [("x", GRB.mkVar (-1) PrimFloat.zero PrimFloat.zero)]
       [("c", GRB.mkConstr (-1) PrimFloat.zero PrimFloat.zero)])
    {[ "ws.pickle" := pickle.Pickle (pickle.PCVBasis (["x"], [2]) (["c"], [false])) ]}
    [].

(** An LP with variables x1, x2, x3 restored from a basis bundle that
    holds x1 (at upper bound) and x2 (basic) only. *)
Definition partial_world : World :=
  mkWorld
    (mk false None (Some "ws.pickle") false
       [("x1", GRB.mkVar (-1) PrimFloat.zero PrimFloat.zero);
        ("x2", GRB.mkVar (-1) PrimFloat.zero PrimFloat.zero);
        ("x3", GRB.mkVar (-1) PrimFloat.zero PrimFloat.zero)]
       [])
    {[ "ws.pickle" := pickle.Pickle (pickle.PCVBasis (["x1"; "x2"], [2; 0]) ([], [])) ]}
    [].

(** An LP session whose restore file holds a start bundle with two
    variable names but one variable value. *)
Definition ragged_world : World :=
  mkWorld
    (mk false None (Some "ws.pickle") false
       [("x", GRB.mkVar 0 PrimFloat.zero PrimFloat.two);
        ("y", GRB.mkVar 0 PrimFloat.zero PrimFloat.two)]
       [])
    {[ "ws.pickle" := pickle.Pickle (pickle.PStart (["x"; "y"], [PrimFloat.one]) ([], [])) ]}
    [].

(** A solved LP with two variables and one constraint, to be captured as
    primal and dual values. *)
Definition solved_start_world : World :=
  mkWorld
    (mk false (Some "ws.pickle") None false
       [("x", GRB.mkVar 0 PrimFloat.one PrimFloat.zero);
        ("y", GRB.mkVar (-1) PrimFloat.two PrimFloat.zero)]
       [("c", GRB.mkConstr (-1) PrimFloat.one PrimFloat.zero)])
    ∅ [].

(** A solved LP with two variables and one constraint, to be captured as
    a basis. *)
Definition solved_world : World :=
  mkWorld
    (mk false (Some "ws.pickle") None true
       [("x", GRB.mkVar 0 PrimFloat.one PrimFloat.zero);
        ("y", GRB.mkVar (-2) PrimFloat.two PrimFloat.zero)]
       [("c", GRB.mkConstr (-1) PrimFloat.one PrimFloat.zero)])
    ∅ [].

(** ** Carrying a capture into a later session *)

(** What a restore from the capture of [w1] does to a variable [g2] and
    to a constraint [c2] of the later session, given the component [g1] or
    [c1] of the same name in [w1]. *)
Definition var_transfer (w1 : World) (g1 g2 : GRB.Var) : GRB.Var :=
  if _save_c_v_basis (self w1)
  then GRB.set_VBasis (GRB.VBasis g1) g2 else GRB.set_PStart (GRB.X g1) g2.

Definition const_transfer (w1 : World) (c1 c2 : GRB.Constr) : GRB.Constr :=
  if _save_c_v_basis (self w1)
  then GRB.set_CBasis (GRB.CBasis c1) c2 else GRB.set_DStart (GRB.Pi c1) c2.

(** Two bundles of the same kind that answer alike for every name of the
    session [w]. *)
Definition same_answers (d1 d2 : WarmStartData) (w : World) : Prop :=
  match d1, d2 with
  | CVBasisData v1 c1, CVBasisData v2 c2 =>
      (forall nm, nm ∈ (_pyomo_var_to_solver_var_map (self w)).*1 ->
                  served v1 !! nm = served v2 !! nm)
      /\ (forall nm, nm ∈ (_pyomo_con_to_solver_con_map (self w)).*1 ->
                     served c1 !! nm = served c2 !! nm)
  | StartData v1 c1, StartData v2 c2 =>
      (forall nm, nm ∈ (_pyomo_var_to_solver_var_map (self w)).*1 ->
                  served v1 !! nm = served v2 !! nm)
      /\ (forall nm, nm ∈ (_pyomo_con_to_solver_con_map (self w)).*1 ->
                     served c1 !! nm = served c2 !! nm)
  | _, _ => False
  end.

(** The session [w] pointed at another set of files. *)
Definition with_files (files' : gmap string pickle.file) (w : World) : World :=
  mkWorld (self w) files' (warned w).

(** A later LP session with the variables x, y and z and the constraint
    c, restoring from the file that the capture of [solved_world] wrote. *)
Definition resumed_world : World :=
  mkWorld
    (mk false None (Some "ws.pickle") false
       [("x", GRB.mkVar (-1) PrimFloat.zero PrimFloat.zero);
        ("z", GRB.mkVar (-1) PrimFloat.zero PrimFloat.zero);
        ("y", GRB.mkVar (-1) PrimFloat.zero PrimFloat.zero)]
       [("c", GRB.mkConstr 0 PrimFloat.zero PrimFloat.zero)])
    {[ "ws.pickle" := pickle.Pickle (pickle.PCVBasis (["x"; "y"], [0; 2]) (["c"], [true])) ]}
    [].

(** A solved LP whose second variable reports the code 1. *)
Definition positive_code_world : World :=
  mkWorld
    (mk false (Some "ws.pickle") None true
       [("x", GRB.mkVar (-1) PrimFloat.zero PrimFloat.zero);
        ("y", GRB.mkVar 1 PrimFloat.zero PrimFloat.zero)]
       [])
    ∅ [].

(** The name made of the letter a followed by a NUL character, and a
    solved LP whose single variable bears it, to be captured as primal and
    dual values. *)
Definition nul_name : string := String "a" (String Ascii.zero EmptyString).

Definition nul_name_world : World :=
  mkWorld
    (mk false (Some "ws.pickle") None false
       [(nul_name, GRB.mkVar 0 PrimFloat.one PrimFloat.zero)]
       [])
    ∅ [].

(** The pickle [p] is of the kind that the session [w] asks for and has
    one name and one value per variable and per constraint of [w]. *)
Definition pickle_fits (p : pickle.pickled) (w : World) : Prop :=
  let n_var := length (_pyomo_var_to_solver_var_map (self w)) in
  let n_const := length (_pyomo_con_to_solver_con_map (self w)) in
  match p with
  | pickle.PCVBasis vs cs =>
      _save_c_v_basis (self w) = true
      /\ length vs.1 = n_var /\ length vs.2 = n_var
      /\ length cs.1 = n_const /\ length cs.2 = n_const
  | pickle.PStart vs cs =>
      _save_c_v_basis (self w) = false
      /\ length vs.1 = n_var /\ length vs.2 = n_var
      /\ length cs.1 = n_const /\ length cs.2 = n_const
  end.

(** * Properties *)

(** ** Facts about the stores *)

(** Lengths of the lists the proofs below build. *)
Ltac list_len :=
  rewrite ?length_app, ?length_fmap, ?length_replicate, ?length_seq; cbn; lia.

Section dict_facts.
Context {V : Type}.
Implicit Types (l : list (string * V)) (d : gmap string V).

Lemma dict_of_cons k v l d :
  dict_of ((k, v) :: l) d = dict_of l (<[k := v]> d).
Proof. reflexivity. Qed.

Lemma dict_of_absent l : forall d k,
  k ∉ l.*1 -> dict_of l d !! k = d !! k.
Proof.
  induction l as [|[k0 v0] l IH]; intros d k Hk; [reflexivity|].
  rewrite fmap_cons in Hk. apply not_elem_of_cons in Hk as [Hne Hk].
  rewrite dict_of_cons, (IH _ _ Hk).
  by rewrite lookup_insert_ne.
Qed.

Lemma dict_of_present l : forall d k v,
  NoDup l.*1 -> (k, v) ∈ l -> dict_of l d !! k = Some v.
Proof.
  induction l as [|[k0 v0] l IH]; intros d k v Hnd Hin.
  - by apply elem_of_nil in Hin.
  - rewrite fmap_cons in Hnd. apply NoDup_cons in Hnd as [Hfresh Hnd].
    rewrite dict_of_cons.
    apply elem_of_cons in Hin as [Heq|Hin].
    + injection Heq as -> ->.
      rewrite (dict_of_absent l _ _ Hfresh). apply lookup_insert_eq.
    + by apply (IH _ _ _ Hnd).
Qed.

Lemma zip_pairs {G} (f : G -> V) (items : list (string * G)) :
  zip items.*1 (f <$> items.*2) = (fun x => (x.1, f x.2)) <$> items.
Proof. induction items as [|[nm g] items IH]; cbn; [done|]. by f_equal. Qed.

End dict_facts.

Section store_facts.
Context {R V : Type}.
Variable val_dtype : R -> exn + V.
Implicit Types (s : PicklableData.t V).

Import PicklableData.

Lemma get_component_served s k :
  get_component s k = getitem (served s) k (state_of (get_component s k)).
Proof.
  unfold get_component, served, getitem.
  destruct (_dict s) as [d|] eqn:E; cbn.
  - by destruct (d !! k).
  - by destruct (_get_dict s !! k).
Qed.

Lemma get_component_state s k :
  state_of (get_component s k)
  = mk (_names s) (_vals s) (Some (served s)) (next_index s) (n s).
Proof.
  unfold get_component, served, getitem.
  destruct s as [ns vs [d|] i m]; cbn.
  - by destruct (d !! k).
  - by destruct (_ !! k).
Qed.

Lemma save_component_dict s nm val :
  _dict (state_of (save_component val_dtype s nm val)) = _dict s.
Proof.
  unfold save_component.
  destruct (next_index s); [|done].
  repeat case_decide; try done.
  by destruct (val_dtype val).
Qed.

(** [save_component] neither reads nor writes [_dict]. *)
Lemma save_component_any_dict s nm val d :
  save_component val_dtype (mk (_names s) (_vals s) d (next_index s) (n s)) nm val
  = map_state (fun s' => mk (_names s') (_vals s') d (next_index s') (n s'))
      (save_component val_dtype s nm val).
Proof.
  destruct s as [ns vs d0 [i|] m]; unfold save_component; cbn; [|done].
  repeat case_decide; try done.
  by destruct (val_dtype val).
Qed.

Lemma save_component_room s nm val i v :
  next_index s = Some i ->
  (i < length (_names s))%nat -> (i < length (_vals s))%nat ->
  val_dtype val = inr v ->
  save_component val_dtype s nm val
  = Return tt (mk (<[i := nm]> (_names s)) (<[i := v]> (_vals s)) (_dict s)
                  (Some (S i)) (n s)).
Proof.
  intros Hi Hn Hv Hc. unfold save_component. rewrite Hi.
  rewrite !decide_True by done. by rewrite Hc.
Qed.

Lemma save_component_full s nm val i :
  next_index s = Some i -> (length (_names s) <= i)%nat ->
  save_component val_dtype s nm val = Raise IndexError s.
Proof.
  intros Hi Hn. unfold save_component. rewrite Hi.
  rewrite decide_False by lia. done.
Qed.

End store_facts.

(** ** Filling a store in a loop *)

Section fill.
Context {R V G : Type}.
Variable val_dtype : R -> exn + V.
Variable getAttr : G -> R.
Implicit Types (items : list (string * G)).

Import PicklableData.

(** The loop overwrites the cells from [next_index] on, one per item,
    and leaves the cells after them as they were. *)
Lemma save_all_fill items : forall names vals fn fv rn rv vs d m,
  length vals = length names ->
  length fn = length items -> length fv = length items ->
  converted val_dtype getAttr items vs ->
  save_all (save_component val_dtype) getAttr items
    (mk (names ++ fn ++ rn) (vals ++ fv ++ rv) d (Some (length names)) m)
  = Return tt
      (mk (names ++ items.*1 ++ rn) (vals ++ vs ++ rv) d
          (Some (length names + length items)%nat) m).
Proof.
  induction items as [|[nm g] items IH];
    intros names vals fn fv rn rv vs d m Hlen Hfn Hfv Hconv.
  - apply Forall2_nil_inv_l in Hconv as ->.
    destruct fn; [|done]. destruct fv; [|done]. cbn.
    by rewrite Nat.add_0_r.
  - apply Forall2_cons_inv_l in Hconv as (v & vs' & Hv & Hconv & ->).
    destruct fn as [|f0 fn]; [done|]. destruct fv as [|v0 fv]; [done|].
    cbn in Hfn, Hfv, Hv.
    cbn [save_all].
    erewrite save_component_room; [|reflexivity|..|exact Hv];
      cbn [_names _vals]; [|list_len..].
    cbn [_names _vals _dict n].
    rewrite (insert_app_r_alt names), (insert_app_r_alt vals) by lia.
    rewrite Hlen, Nat.sub_diag.
    change (<[0%nat := nm]> ((f0 :: fn) ++ rn)) with (nm :: fn ++ rn).
    change (<[0%nat := v]> ((v0 :: fv) ++ rv)) with (v :: fv ++ rv).
    rewrite (cons_middle nm names), (cons_middle v vals), !(assoc app _ [_]).
    replace (S (length names)) with (length (names ++ [nm]))
      by list_len.
    rewrite (IH (names ++ [nm]) (vals ++ [v]) fn fv rn rv vs' d m);
      [|list_len|lia|lia|done].
    rewrite fmap_cons. cbn [fst length].
    rewrite <- !(assoc app), length_app. cbn [app length].
    do 3 f_equal. lia.
Qed.

(** A store fresh from [__init__] after a loop over [k <= n] items. *)
Lemma save_all_init (uninit : nat -> V) (size : nat) items vs :
  (length items <= size)%nat -> converted val_dtype getAttr items vs ->
  save_all (save_component val_dtype) getAttr items
    (__init__ uninit size)
  = Return tt
      (mk (items.*1 ++ replicate (size - length items) "")
          (vs ++ drop (length items) (np.empty uninit size))
          None (Some (length items)) (Some size)).
Proof.
  intros Hk Hconv. unfold __init__.
  pose proof (save_all_fill items [] [] (replicate (length items) "")
                (take (length items) (np.empty uninit size))
                (replicate (size - length items) "")
                (drop (length items) (np.empty uninit size)) vs None (Some size)) as H.
  cbn [app length] in H. rewrite <- replicate_add, take_drop in H.
  replace (length items + (size - length items))%nat with size in H by lia.
  apply H; [done|by rewrite length_replicate| |done].
  rewrite length_take. unfold np.empty. list_len.
Qed.

End fill.

(** ** What [_save_warm_start] writes *)

Section capture.
Variable rt : NumPy.
Implicit Types (w : World).

Lemma converted_fmap {R V G} (val_dtype : R -> exn + V) (getAttr : G -> R)
  (cell : G -> V) (items : list (string * G)) :
  Forall (fun item => val_dtype (getAttr item.2) = inr (cell item.2)) items ->
  converted val_dtype getAttr items (cell <$> items.*2).
Proof.
  unfold converted. induction 1 as [|item items Hc _ IH]; cbn; constructor; done.
Qed.

(** A loop over exactly [n] items on a store made for [n]. *)
Lemma save_all_exact {R V G} (val_dtype : R -> exn + V) (getAttr : G -> R)
  (cell : G -> V) (uninit : nat -> V) (items : list (string * G)) :
  Forall (fun item => val_dtype (getAttr item.2) = inr (cell item.2)) items ->
  save_all (PicklableData.save_component val_dtype) getAttr items
    (PicklableData.__init__ uninit (length items))
  = Return tt
      (PicklableData.mk items.*1 (cell <$> items.*2) None
         (Some (length items)) (Some (length items))).
Proof.
  intros Hc.
  rewrite (save_all_init val_dtype getAttr uninit (length items) items
             (cell <$> items.*2)); [|lia|by apply converted_fmap].
  rewrite Nat.sub_diag, drop_ge, !app_nil_r; [done|].
  unfold np.empty. list_len.
Qed.

Lemma getstate_exact {V} (names : list string) (vals : list V) (k : nat) :
  PicklableData.__getstate__ (PicklableData.mk names vals None (Some k) (Some k))
  = inr ([], (np.array names, vals)).
Proof. unfold PicklableData.__getstate__; cbn. by rewrite decide_True. Qed.

Lemma vbasis_in_range v :
  -255 <= GRB.VBasis v <= 0 -> VBasis.encode rt (GRB.VBasis v) = inr (vbasis_cell v).
Proof.
  intros H. unfold VBasis.encode, np.uint8, vbasis_cell.
  rewrite decide_True by lia. f_equal. lia.
Qed.

Lemma collect_basis w :
  _save_c_v_basis (self w) = true ->
  Forall (fun item => -255 <= GRB.VBasis item.2 <= 0)
    (_pyomo_var_to_solver_var_map (self w)) ->
  collect rt w
  = inr (CVBasisData
          (PicklableData.mk (_pyomo_var_to_solver_var_map (self w)).*1
             (vbasis_cell <$> (_pyomo_var_to_solver_var_map (self w)).*2) None
             (Some (length (_pyomo_var_to_solver_var_map (self w))))
             (Some (length (_pyomo_var_to_solver_var_map (self w)))))
          (PicklableData.mk (_pyomo_con_to_solver_con_map (self w)).*1
             (cbasis_cell <$> (_pyomo_con_to_solver_con_map (self w)).*2) None
             (Some (length (_pyomo_con_to_solver_con_map (self w))))
             (Some (length (_pyomo_con_to_solver_con_map (self w)))))).
Proof.
  intros Hkind Hrange. unfold collect. rewrite Hkind.
  change (VBasis.save_component rt)
    with (PicklableData.save_component (VBasis.encode rt)).
  unfold VBasis.__init__, CBasis.__init__.
  rewrite (save_all_exact (VBasis.encode rt) GRB.VBasis vbasis_cell).
  2:{ eapply Forall_impl; [exact Hrange|]. intros item. apply vbasis_in_range. }
  change CBasis.save_component with (PicklableData.save_component np.bool).
  rewrite (save_all_exact np.bool GRB.CBasis cbasis_cell); [done|].
  by apply Forall_true.
Qed.

Lemma collect_start w :
  _save_c_v_basis (self w) = false ->
  collect rt w
  = inr (StartData
          (PicklableData.mk (_pyomo_var_to_solver_var_map (self w)).*1
             (GRB.X <$> (_pyomo_var_to_solver_var_map (self w)).*2) None
             (Some (length (_pyomo_var_to_solver_var_map (self w))))
             (Some (length (_pyomo_var_to_solver_var_map (self w)))))
          (PicklableData.mk (_pyomo_con_to_solver_con_map (self w)).*1
             (GRB.Pi <$> (_pyomo_con_to_solver_con_map (self w)).*2) None
             (Some (length (_pyomo_con_to_solver_con_map (self w))))
             (Some (length (_pyomo_con_to_solver_con_map (self w)))))).
Proof.
  intros Hkind. unfold collect. rewrite Hkind.
  rewrite (save_all_exact np.float64 GRB.X GRB.X); [|by apply Forall_true].
  rewrite (save_all_exact np.float64 GRB.Pi GRB.Pi); [done|by apply Forall_true].
Qed.

Lemma save_basis w path :
  _save_c_v_basis (self w) = true ->
  _write_warm_start (self w) = Some path ->
  Forall (fun item => -255 <= GRB.VBasis item.2 <= 0)
    (_pyomo_var_to_solver_var_map (self w)) ->
  _save_warm_start rt w = Return tt (written path (basis_pickle w) w).
Proof.
  intros Hkind Hpath Hrange. unfold _save_warm_start.
  rewrite (collect_basis w Hkind Hrange), Hpath. unfold pickle.dumps.
  rewrite !getstate_exact. unfold written, basis_pickle. cbn [app].
  by rewrite app_nil_r.
Qed.

Lemma save_start w path :
  _save_c_v_basis (self w) = false ->
  _write_warm_start (self w) = Some path ->
  _save_warm_start rt w = Return tt (written path (start_pickle w) w).
Proof.
  intros Hkind Hpath. unfold _save_warm_start.
  rewrite (collect_start w Hkind), Hpath. unfold pickle.dumps.
  rewrite !getstate_exact. unfold written, start_pickle. cbn [app].
  by rewrite app_nil_r.
Qed.

End capture.

(** ** What [_warm_start] sets *)

Section restore.

Lemma after_misses_cons m nm missing :
  after_misses (mkMisses (Some (KeyError nm)) (error_count m + 1)) missing
  = after_misses m (nm :: missing).
Proof.
  unfold after_misses. rewrite last_cons. cbn [error error_count length].
  f_equal; [by destruct (last missing)|lia].
Qed.

Lemma set_attrs_spec {S A G} (get : S -> string -> outcome S A)
  (setAttr : A -> G -> G) (dflt : A) index (Inv : S -> Prop) :
  answers_from get index Inv ->
  forall items data m, Inv data ->
    exists data', Inv data' /\
      set_attrs get setAttr dflt items data m
      = Return tt (restored setAttr dflt index items, data',
                   after_misses m (missed index items)).
Proof.
  intros Hget. induction items as [|[nm g] items IH]; intros data m Hinv.
  - exists data. split; [done|]. cbn. unfold after_misses; cbn.
    rewrite Z.add_0_r. by destruct m.
  - destruct (Hget data nm Hinv) as [Hinv' Hres].
    cbn [set_attrs]. rewrite Hres. unfold missed, restored.
    rewrite !fmap_cons. cbn [fst snd]. rewrite filter_cons.
    destruct (index !! nm) as [v|] eqn:E.
    + destruct (IH (state_of (get data nm)) m Hinv') as (data' & Hd & ->).
      exists data'. split; [done|]. rewrite decide_False by done. done.
    + destruct (IH (state_of (get data nm))
                  (mkMisses (Some (KeyError nm)) (error_count m + 1)) Hinv')
        as (data' & Hd & ->).
      exists data'. split; [done|]. rewrite decide_True by done.
      cbn. by rewrite after_misses_cons.
Qed.

Lemma miss_warning_after l1 l2 :
  match error (after_misses (after_misses (mkMisses None 0) l1) l2) with
  | Some e =>
      [NotFoundInWarmStart e
         (error_count (after_misses (after_misses (mkMisses None 0) l1) l2) - 1)]
  | None => []
  end = miss_warning (l1 ++ l2).
Proof.
  unfold miss_warning, after_misses. cbn [error error_count].
  rewrite last_app, length_app.
  destruct (last l2); [do 2 f_equal; lia|].
  destruct (last l1); [do 2 f_equal; lia|done].
Qed.

Lemma set_all_spec {SV AV SC AC}
  (var_get : SV -> string -> outcome SV AV) var_attr (var_default : AV)
  (const_get : SC -> string -> outcome SC AC) const_attr (const_default : AC)
  vi ci (InvV : SV -> Prop) (InvC : SC -> Prop) var_data const_data w :
  answers_from var_get vi InvV -> answers_from const_get ci InvC ->
  InvV var_data -> InvC const_data ->
  set_all var_get var_attr var_default const_get const_attr const_default
    var_data const_data w
  = Return tt
      (finished
         (restored var_attr var_default vi (_pyomo_var_to_solver_var_map (self w)))
         (restored const_attr const_default ci (_pyomo_con_to_solver_con_map (self w)))
         (missed vi (_pyomo_var_to_solver_var_map (self w))
          ++ missed ci (_pyomo_con_to_solver_con_map (self w)))
         w).
Proof.
  intros HV HC Hv Hc. unfold set_all.
  destruct (set_attrs_spec var_get var_attr var_default vi InvV HV
              (_pyomo_var_to_solver_var_map (self w)) var_data (mkMisses None 0) Hv)
    as (vd' & _ & ->).
  cbn [fst snd].
  destruct (set_attrs_spec const_get const_attr const_default ci InvC HC
              (_pyomo_con_to_solver_con_map (self w)) const_data
              (after_misses (mkMisses None 0)
                 (missed vi (_pyomo_var_to_solver_var_map (self w)))) Hc)
    as (cd' & _ & ->).
  cbn [fst snd]. rewrite miss_warning_after. done.
Qed.

(** The three lookups answer from the index the store serves. *)
Lemma plain_answers {V} (index : gmap string V) :
  answers_from PicklableData.get_component index (fun s => served s = index).
Proof.
  intros s k <-. split.
  - by rewrite get_component_state.
  - by rewrite get_component_served at 1.
Qed.

Lemma decoded_answers {V A} (decode : V -> A) (index : gmap string V) :
  answers_from (fun s k => map_value decode (PicklableData.get_component s k))
    (decode <$> index) (fun s => served s = index).
Proof.
  intros s k Hs. destruct (plain_answers index s k Hs) as [Hinv Hres].
  assert (Hst : state_of (map_value decode (PicklableData.get_component s k))
                = state_of (PicklableData.get_component s k))
    by by destruct (PicklableData.get_component s k).
  rewrite Hst. split; [done|].
  rewrite Hres at 1. rewrite lookup_fmap. by destruct (index !! k).
Qed.

End restore.

(** ** The basis codecs *)

(** A value saved into a fresh store made for one entry is stored in
    its single cell and looked up again. *)
Lemma one_cell_round_trip {R V : Type} (val_dtype : R -> exn + V)
  (uninit : nat -> V) (name : string) (val : R) (v : V) :
  val_dtype val = inr v ->
  exists s s',
    PicklableData.save_component val_dtype (PicklableData.__init__ uninit 1) name val
    = Return tt s
    /\ PicklableData._vals s = [v]
    /\ PicklableData.get_component s name = Return v s'.
Proof.
  intros Hc.
  erewrite save_component_room; [|reflexivity|cbn; lia|cbn; lia|exact Hc].
  do 2 eexists. split; [reflexivity|]. split; [reflexivity|].
  unfold PicklableData.get_component, PicklableData._get_dict,
    PicklableData.getitem. cbn. by rewrite lookup_insert_eq.
Qed.

Lemma vbasis_one_cell (rt : NumPy) (name : string) (c u : Z) :
  np.uint8 rt (c * -1) = inr u ->
  exists s s',
    VBasis.save_component rt (VBasis.__init__ rt 1) name c = Return tt s
    /\ PicklableData._vals s = [u]
    /\ VBasis.get_component s name = Return (VBasis.decode u) s'.
Proof.
  intros Hc.
  destruct (one_cell_round_trip (np.uint8 rt) (empty_uint8 rt) name (c * -1) u Hc)
    as (s & s' & Hsave & Hcell & Hget).
  exists s, s'. repeat split; [exact Hsave|exact Hcell|].
  unfold VBasis.get_component. by rewrite Hget.
Qed.

Lemma cbasis_one_cell (rt : NumPy) (name : string) (c : Z) :
  exists s s',
    CBasis.save_component (CBasis.__init__ rt 1) name c = Return tt s
    /\ PicklableData._vals s = [negb (c =? 0)%Z]
    /\ CBasis.get_component s name = Return (CBasis.decode (negb (c =? 0)%Z)) s'.
Proof.
  destruct (one_cell_round_trip np.bool (empty_bool rt) name c (negb (c =? 0)%Z)
              eq_refl) as (s & s' & Hsave & Hcell & Hget).
  exists s, s'. repeat split; [exact Hsave|exact Hcell|].
  unfold CBasis.get_component. by rewrite Hget.
Qed.

(** C7: the basis codecs are bijections on their codes.  Saving each
    of the 4 variable basis codes 0, -1, -2, -3 into a [VBasis] store puts
    the distinct bytes 0, 1, 2, 3 in the cell, and looking the name up
    again returns the code that was saved; saving each of the 2 constraint
    basis codes 0, -1 into a [CBasis] store puts [False], [True] in the
    cell, and looking the name up again returns the code that was saved. *)
Theorem C7_codec_bijection (rt : NumPy) (name : string) :
  Forall2
    (fun c u =>
       exists s s',
         VBasis.save_component rt (VBasis.__init__ rt 1) name c = Return tt s
         /\ PicklableData._vals s = [u]
         /\ VBasis.get_component s name = Return c s')
    variable_basis_codes [0; 1; 2; 3]
  /\ Forall2
       (fun c b =>
          exists s s',
            CBasis.save_component (CBasis.__init__ rt 1) name c = Return tt s
            /\ PicklableData._vals s = [b]
            /\ CBasis.get_component s name = Return c s')
       constraint_basis_codes [false; true].
Proof.
  assert (Hbyte : forall c u, 0 <= u <= 255 -> u = c * -1 ->
                               np.uint8 rt (c * -1) = inr u).
  { intros c u Hu ->. unfold np.uint8. by rewrite decide_True. }
  split.
  - unfold variable_basis_codes.
    constructor; [apply (vbasis_one_cell rt name 0 0), Hbyte; lia|].
    constructor; [apply (vbasis_one_cell rt name (-1) 1), Hbyte; lia|].
    constructor; [apply (vbasis_one_cell rt name (-2) 2), Hbyte; lia|].
    constructor; [apply (vbasis_one_cell rt name (-3) 3), Hbyte; lia|].
    constructor.
  - unfold constraint_basis_codes.
    constructor; [apply (cbasis_one_cell rt name 0)|].
    constructor; [apply (cbasis_one_cell rt name (-1))|].
    constructor.
Qed.

(** C10: the variable codec is arithmetic.  For every integer [c] with
    -255 <= c <= 0, known code or not, encoding stores [-c] without raising
    and decoding negates it back; saved into a [VBasis] store and looked
    up again, [c] comes back exactly. *)
Theorem C10_arithmetic_codec (rt : NumPy) (c : Z) (name : string) :
  -255 <= c <= 0 ->
  VBasis.encode rt c = inr (- c)
  /\ VBasis.decode (- c) = c
  /\ exists s s',
       VBasis.save_component rt (VBasis.__init__ rt 1) name c = Return tt s
       /\ VBasis.get_component s name = Return c s'.
Proof.
  intros Hc.
  assert (Henc : np.uint8 rt (c * -1) = inr (- c)).
  { unfold np.uint8. rewrite decide_True by lia. f_equal. lia. }
  split; [exact Henc|]. split; [unfold VBasis.decode; lia|].
  unfold VBasis.save_component, VBasis.__init__.
  erewrite save_component_room; [|reflexivity|cbn; lia|cbn; lia|exact Henc].
  do 2 eexists. split; [reflexivity|].
  unfold VBasis.get_component, PicklableData.get_component,
    PicklableData._get_dict, PicklableData.getitem. cbn.
  rewrite lookup_insert_eq. cbn.
  replace (VBasis.decode (- c)) with c by (unfold VBasis.decode; lia).
  reflexivity.
Qed.

Lemma C10_arithmetic_codec_witness :
  VBasis.encode numpy_strict (-200) = inr 200
  /\ VBasis.decode 200 = -200
  /\ exists s s',
       VBasis.save_component numpy_strict (VBasis.__init__ numpy_strict 1) "x" (-200)
       = Return tt s
       /\ VBasis.get_component s "x" = Return (-200) s'.
Proof. apply (C10_arithmetic_codec numpy_strict (-200) "x"). lia. Defined.

(** ** Unknown basis codes during capture *)

(** C2, as stated, fails: with a variable code and a constraint code
    outside the known ones, the capture returns normally, under either
    NumPy, and the pickle holds 5 for the variable and [True] for the
    constraint. *)
Lemma C2_counterexample :
  (-5 ∉ variable_basis_codes) /\ (7 ∉ constraint_basis_codes)
  /\ _save_warm_start numpy_strict odd_codes_world
     = Return tt
         (written "ws.pickle" (pickle.PCVBasis (["x"], [5]) (["c"], [true]))
            odd_codes_world)
  /\ _save_warm_start numpy_wrapping odd_codes_world
     = Return tt
         (written "ws.pickle" (pickle.PCVBasis (["x"], [5]) (["c"], [true]))
            odd_codes_world).
Proof.
  split; [|split].
  - unfold variable_basis_codes. rewrite !elem_of_cons, elem_of_nil. lia.
  - unfold constraint_basis_codes. rewrite !elem_of_cons, elem_of_nil. lia.
  - split; (rewrite (save_basis _ odd_codes_world "ws.pickle");
            [reflexivity|reflexivity|reflexivity|]);
      repeat constructor; cbn; lia.
Qed.

(** C2, amended: during a basis capture no code is checked against the
    known ones.  Whenever every variable code lies in -255..0 the capture
    returns normally and writes the pickle in which each variable holds the
    negated code and each constraint holds the truth value of its code
    (whether it is nonzero). *)
Theorem C2_capture_checks_no_code (rt : NumPy) (w : World) (path : string) :
  _save_c_v_basis (self w) = true ->
  _write_warm_start (self w) = Some path ->
  Forall (fun item => -255 <= GRB.VBasis item.2 <= 0)
    (_pyomo_var_to_solver_var_map (self w)) ->
  exists w',
    _save_warm_start rt w = Return tt w'
    /\ files w' !! path
       = Some (pickle.Pickle
                 (pickle.PCVBasis
                    (np.array (_pyomo_var_to_solver_var_map (self w)).*1,
                     (fun v => - GRB.VBasis v)
                       <$> (_pyomo_var_to_solver_var_map (self w)).*2)
                    (np.array (_pyomo_con_to_solver_con_map (self w)).*1,
                     (fun c => negb (GRB.CBasis c =? 0)%Z)
                       <$> (_pyomo_con_to_solver_con_map (self w)).*2))).
Proof.
  intros Hkind Hpath Hrange. eexists. split; [by apply save_basis|].
  unfold written. cbn. by rewrite lookup_insert_eq.
Qed.

Lemma C2_capture_checks_no_code_witness :
  Forall (fun item => -255 <= GRB.VBasis item.2 <= 0)
    (_pyomo_var_to_solver_var_map (self odd_codes_world))
  /\ exists w',
    _save_warm_start numpy_strict odd_codes_world = Return tt w'
    /\ files w' !! "ws.pickle"
       = Some (pickle.Pickle (pickle.PCVBasis (["x"], [5]) (["c"], [true]))).
Proof.
  assert (H : Forall (fun item => -255 <= GRB.VBasis item.2 <= 0)
                (_pyomo_var_to_solver_var_map (self odd_codes_world)))
    by (repeat constructor; cbn; lia).
  split; [exact H|].
  exact (C2_capture_checks_no_code numpy_strict odd_codes_world "ws.pickle"
           eq_refl eq_refl H).
Defined.

(** ** Appends, lookups and capacity *)

Section frozen.
Context {R V : Type}.
Variable val_dtype : R -> exn + V.
Implicit Types (s : PicklableData.t V).

Import PicklableData.

Lemma lookups_fields ks : forall s,
  lookups s ks
  = mk (_names s) (_vals s) (_dict (lookups s ks)) (next_index s) (n s).
Proof.
  induction ks as [|k ks IH]; intros s; [by destruct s|].
  cbn [lookups foldl]. fold (lookups (state_of (get_component s k)) ks).
  rewrite IH at 1. by rewrite get_component_state.
Qed.

Lemma run_ops_dict (ops : list (store_op R)) : forall s d,
  _dict s = Some d -> _dict (foldl (run_op val_dtype) s ops) = Some d.
Proof.
  induction ops as [|op ops IH]; intros s d Hd; [done|].
  cbn [foldl]. apply IH. destruct op as [k|nm val]; cbn [run_op].
  - rewrite get_component_state. cbn. unfold served. by rewrite Hd.
  - by rewrite save_component_dict.
Qed.

End frozen.




(** C4, as stated, fails: a store made for one entry, never looked up,
    rejects its second append with [IndexError]; and a store made for two
    entries into which one was appended ends with an entry whose name is
    empty, which a lookup then serves with the uninitialised value. *)
Lemma C4_counterexample :
  exists s1 s2 s3,
    VBasis.save_component numpy_strict (VBasis.__init__ numpy_strict 1) "a" (-1)
    = Return tt s1
    /\ PicklableData._dict s1 = None
    /\ VBasis.save_component numpy_strict s1 "b" (-2) = Raise IndexError s1
    /\ VBasis.save_component numpy_strict (VBasis.__init__ numpy_strict 2) "a" (-1)
       = Return tt s2
    /\ PicklableData._names s2 = ["a"; ""]
    /\ PicklableData.get_component s2 "" = Return 170 s3.
Proof. do 3 eexists. repeat split; reflexivity. Qed.

(** C4, amended: the store is preallocated for [size] entries.  Appending
    [k <= size] entries to a fresh store returns normally and leaves the
    [size - k] trailing cells with empty names and uninitialised values; once
    [size] entries have been appended every further append raises
    [IndexError] and leaves the store as it was. *)
Theorem C4_fixed_capacity {R V : Type} (val_dtype : R -> exn + V)
  (uninit : nat -> V) (size : nat) (entries : list (string * R)) (vs : list V) :
  (length entries <= size)%nat ->
  converted val_dtype id entries vs ->
  exists s,
    save_all (PicklableData.save_component val_dtype) id entries
      (PicklableData.__init__ uninit size) = Return tt s
    /\ PicklableData._names s = entries.*1 ++ replicate (size - length entries) ""
    /\ PicklableData._vals s = vs ++ drop (length entries) (np.empty uninit size)
    /\ (length entries = size ->
        forall nm val,
          PicklableData.save_component val_dtype s nm val = Raise IndexError s).
Proof.
  intros Hk Hconv. eexists. split; [by apply save_all_init|].
  repeat split. intros Hfull nm val.
  apply (save_component_full val_dtype _ nm val (length entries)); [done|].
  cbn. list_len.
Qed.

Lemma C4_fixed_capacity_witness :
  converted (np.uint8 numpy_strict) id [("a", 1); ("b", 2)] [1; 2]
  /\ exists s,
       save_all (PicklableData.save_component (np.uint8 numpy_strict))
         id [("a", 1); ("b", 2)] (PicklableData.__init__ (fun _ => 170) 3)
       = Return tt s
       /\ PicklableData._names s = ["a"; "b"] ++ replicate (3 - 2) ""
       /\ PicklableData._vals s = [1; 2] ++ drop 2 (np.empty (fun _ => 170) 3)
       /\ (2%nat = 3%nat ->
           forall nm val,
             PicklableData.save_component (np.uint8 numpy_strict) s nm val
             = Raise IndexError s).
Proof.
  assert (H : converted (np.uint8 numpy_strict) id [("a", 1); ("b", 2)] [1; 2])
    by (repeat constructor).
  split; [exact H|].
  exact (C4_fixed_capacity (np.uint8 numpy_strict) (fun _ => 170) 3
           [("a", 1); ("b", 2)] [1; 2] (le_S _ _ (le_n _)) H).
Defined.




(** ** Restoring *)

(** C1, as stated, fails: on a discrete program with a basis bundle at
    the restore path, [_warm_start] raises nothing of its own; it returns
    what the base class's warm start returns, here normally. *)
Lemma C1_counterexample :
  IsMIP (self mip_world) = true
  /\ (exists d, pickle.load (files mip_world) "ws.pickle" = inr d
                /\ use_c_v_basis d = true)
  /\ _warm_start GurobiDirect_no_values mip_world
     = Return tt mip_world
  /\ ~ raises (_warm_start GurobiDirect_no_values mip_world).
Proof.
  split; [reflexivity|]. split; [eexists; split; reflexivity|].
  split; [reflexivity|]. cbn. tauto.
Qed.

(** C1, amended: on a discrete program the whole restore is delegated to
    the warm start of the base solver interface, whatever the kind of the
    bundle and whether or not one can be loaded: the result is the base
    class's result on the untouched session, so no attribute is set from the
    bundle and no error of the coordinator's own is raised. *)
Theorem C1_discrete_restore_is_delegated
  (GurobiDirect_warm_start : World -> outcome World unit)
  (w : World) :
  IsMIP (self w) = true ->
  _warm_start GurobiDirect_warm_start w = GurobiDirect_warm_start w.
Proof. intros H. unfold _warm_start. by rewrite H. Qed.

Lemma C1_discrete_restore_is_delegated_witness :
  IsMIP (self mip_world) = true
  /\ _warm_start GurobiDirect_no_values mip_world
     = GurobiDirect_no_values mip_world.
Proof.
  split; [reflexivity|].
  exact (C1_discrete_restore_is_delegated GurobiDirect_no_values mip_world eq_refl).
Defined.

Lemma restored_default {A G} (setAttr : A -> G -> G) (dflt : A)
  (index : gmap string A) (items : list (string * G)) nm g :
  (nm, g) ∈ items -> index !! nm = None ->
  (nm, setAttr dflt g) ∈ restored setAttr dflt index items.
Proof.
  intros Hin Hnone. unfold restored.
  apply list_elem_of_fmap. exists (nm, g). cbn. by rewrite Hnone.
Qed.

Lemma warm_start_continuous
  (GurobiDirect_warm_start : World -> outcome World unit)
  (w : World) (path : string) (d : WarmStartData) :
  IsMIP (self w) = false ->
  _read_warm_start (self w) = Some path ->
  pickle.load (files w) path = inr d ->
  _warm_start GurobiDirect_warm_start w
  = Return tt (warm_started d w).
Proof.
  intros Hlp Hpath Hload. unfold _warm_start.
  rewrite Hlp, Hpath, Hload. destruct d as [vd cd|vd cd].
  - apply (set_all_spec _ _ _ _ _ _ _ _ (fun s => served s = served vd)
             (fun s => served s = served cd)); try done.
    + apply (decoded_answers VBasis.decode).
    + apply (decoded_answers CBasis.decode).
  - apply (set_all_spec _ _ _ _ _ _ _ _ (fun s => served s = served vd)
             (fun s => served s = served cd)); try done.
    + apply plain_answers.
    + apply plain_answers.
Qed.

(** C6: on a continuous program with a loadable bundle the restore
    returns normally.  Every variable and constraint of the session whose
    name the matching store does not hold gets the default (0, i.e. basic,
    for a basis bundle; 0.0 for a start bundle), the others get the stored
    value; the misses are counted, and after both loops exactly one warning
    is issued if there was a miss, naming the last missed name and the count
    of the others (the count less one), and none otherwise. *)
Theorem C6_misses_get_defaults
  (GurobiDirect_warm_start : World -> outcome World unit)
  (w : World) (path : string) (d : WarmStartData) :
  IsMIP (self w) = false ->
  _read_warm_start (self w) = Some path ->
  pickle.load (files w) path = inr d ->
  let vars := _pyomo_var_to_solver_var_map (self w) in
  let cons := _pyomo_con_to_solver_con_map (self w) in
  let w' := warm_started d w in
  let vars' := _pyomo_var_to_solver_var_map (self w') in
  let cons' := _pyomo_con_to_solver_con_map (self w') in
  _warm_start GurobiDirect_warm_start w = Return tt w'
  /\ match d with
     | CVBasisData vd cd =>
         (forall nm g, (nm, g) ∈ vars -> served vd !! nm = None ->
                       (nm, GRB.set_VBasis 0 g) ∈ vars')
         /\ (forall nm g, (nm, g) ∈ cons -> served cd !! nm = None ->
                          (nm, GRB.set_CBasis 0 g) ∈ cons')
     | StartData vd cd =>
         (forall nm g, (nm, g) ∈ vars -> served vd !! nm = None ->
                       (nm, GRB.set_PStart PrimFloat.zero g) ∈ vars')
         /\ (forall nm g, (nm, g) ∈ cons -> served cd !! nm = None ->
                          (nm, GRB.set_DStart PrimFloat.zero g) ∈ cons')
     end
  /\ warned w'
     = warned w ++ miss_warning (missing_names d w)
  /\ (missing_names d w = [] -> miss_warning (missing_names d w) = [])
  /\ (missing_names d w <> [] ->
      exists nm,
        last (missing_names d w) = Some nm
        /\ miss_warning (missing_names d w)
           = [NotFoundInWarmStart (KeyError nm)
                (Z.of_nat (length (missing_names d w)) - 1)]).
Proof.
  intros Hlp Hpath Hload vars cons w' vars' cons'.
  split; [by eapply warm_start_continuous|].
  split; [|split; [|split]].
  - subst vars' cons' w'. destruct d as [vd cd|vd cd]; cbn; split; intros nm g Hin Hnone;
      apply restored_default; try done; by rewrite lookup_fmap, Hnone.
  - subst w'. by destruct d.
  - intros ->. done.
  - intros Hne. unfold miss_warning.
    destruct (last (missing_names d w)) as [nm|] eqn:E; [by exists nm|].
    by apply last_None in E.
Qed.

Example partial_match :
  exists w',
    _warm_start GurobiDirect_no_values partial_world = Return tt w'
    /\ _pyomo_var_to_solver_var_map (self w')
       = [("x1", GRB.mkVar (-2) PrimFloat.zero PrimFloat.zero);
          ("x2", GRB.mkVar 0 PrimFloat.zero PrimFloat.zero);
          ("x3", GRB.mkVar 0 PrimFloat.zero PrimFloat.zero)]
    /\ warned w' = [NotFoundInWarmStart (KeyError "x3") 0].
Proof. eexists. repeat split; reflexivity. Qed.

Lemma C6_misses_get_defaults_witness :
  IsMIP (self partial_world) = false
  /\ _warm_start GurobiDirect_no_values partial_world
     = Return tt
         (warm_started (pickle.loads (pickle.PCVBasis (["x1"; "x2"], [2; 0]) ([], [])))
            partial_world).
Proof.
  split; [reflexivity|].
  exact (proj1 (C6_misses_get_defaults GurobiDirect_no_values partial_world
                  "ws.pickle"
                  (pickle.loads (pickle.PCVBasis (["x1"; "x2"], [2; 0]) ([], [])))
                  eq_refl eq_refl eq_refl)).
Defined.

(** ** The persisted bundle *)

(** C5, as stated, fails: a file whose names and values differ in
    length loads without error (nothing checks a version or a length), and
    the restore goes on to use it, the unmatched name counting as a miss. *)
Lemma C5_counterexample :
  length ["x"; "y"] <> length [PrimFloat.one]
  /\ pickle.load (files ragged_world) "ws.pickle"
     = inr (StartData (PicklableData.mk ["x"; "y"] [PrimFloat.one] None None None)
              (PicklableData.mk [] [] None None None))
  /\ exists w',
       _warm_start GurobiDirect_no_values ragged_world = Return tt w'
       /\ _pyomo_var_to_solver_var_map (self w')
          = [("x", GRB.mkVar 0 PrimFloat.zero PrimFloat.one);
             ("y", GRB.mkVar 0 PrimFloat.zero PrimFloat.zero)]
       /\ warned w' = [NotFoundInWarmStart (KeyError "y") 0].
Proof.
  split; [cbn; lia|]. split; [reflexivity|].
  eexists. repeat split; reflexivity.
Qed.

(** C5, amended: the bundle is persisted by pickling the [WarmStartData]
    object.  What reaches the file is, for the variables and for the
    constraints, the class of the store with the pair of its names array and
    its values array (the negated codes and the truth values of a basis
    capture, the floats of a start capture), and no format version.  Loading
    a pickled bundle checks nothing: it succeeds on every one and rebuilds
    each store from its two arrays as they are, index unbuilt. *)
Theorem C5_bundle_is_pickled (rt : NumPy) (w : World) (path : string) :
  _write_warm_start (self w) = Some path ->
  (_save_c_v_basis (self w) = true ->
   Forall (fun item => -255 <= GRB.VBasis item.2 <= 0)
     (_pyomo_var_to_solver_var_map (self w))) ->
  _save_warm_start rt w
  = Return tt
      (written path
         (if _save_c_v_basis (self w)
          then basis_pickle w else start_pickle w) w)
  /\ forall (files : gmap string pickle.file) (p : pickle.pickled),
       files !! path = Some (pickle.Pickle p) ->
       pickle.load files path
       = inr match p with
             | pickle.PCVBasis vs cs =>
                 CVBasisData (PicklableData.mk vs.1 vs.2 None None None)
                   (PicklableData.mk cs.1 cs.2 None None None)
             | pickle.PStart vs cs =>
                 StartData (PicklableData.mk vs.1 vs.2 None None None)
                   (PicklableData.mk cs.1 cs.2 None None None)
             end.
Proof.
  intros Hpath Hrange. split.
  - destruct (_save_c_v_basis (self w)) eqn:Hkind.
    + by apply save_basis; [| |apply Hrange].
    + by apply save_start.
  - intros files p Hfile. unfold pickle.load. rewrite Hfile. by destruct p.
Qed.

Lemma C5_bundle_is_pickled_witness :
  _write_warm_start (self odd_codes_world)
  = Some "ws.pickle"
  /\ Forall (fun item => -255 <= GRB.VBasis item.2 <= 0)
       (_pyomo_var_to_solver_var_map (self odd_codes_world))
  /\ _save_warm_start numpy_strict odd_codes_world
     = Return tt
         (written "ws.pickle" (pickle.PCVBasis (["x"], [5]) (["c"], [true]))
            odd_codes_world).
Proof.
  assert (H : Forall (fun item => -255 <= GRB.VBasis item.2 <= 0)
                (_pyomo_var_to_solver_var_map (self odd_codes_world)))
    by (repeat constructor; cbn; lia).
  split; [reflexivity|]. split; [exact H|].
  exact (proj1 (C5_bundle_is_pickled numpy_strict odd_codes_world "ws.pickle"
                  eq_refl (fun _ => H))).
Defined.

(** ** Round trip *)

Lemma np_array_exact (names : list string) :
  Forall numpy_exact names -> np.array names = names.
Proof.
  unfold np.array. induction 1 as [|nm names Hnm _ IH]; cbn; [done|].
  by rewrite Hnm, IH.
Qed.

(** Looking up, in a store rebuilt from the pickle of a full store, the
    name of an item: the cell of that item comes back. *)
Lemma loaded_lookup {V G} (cell : G -> V) (items : list (string * G)) nm g :
  NoDup items.*1 -> Forall numpy_exact items.*1 -> (nm, g) ∈ items ->
  exists s',
    PicklableData.get_component
      (PicklableData.__setstate__ (np.array items.*1, cell <$> items.*2)) nm
    = Return (cell g) s'.
Proof.
  intros Hnd Hexact Hin.
  rewrite get_component_served. unfold served, PicklableData._get_dict.
  cbn [PicklableData.__setstate__ PicklableData._dict PicklableData._names
       PicklableData._vals fst snd].
  rewrite (np_array_exact _ Hexact), zip_pairs.
  unfold PicklableData.getitem.
  assert (H : dict_of ((fun x => (x.1, cell x.2)) <$> items) ∅ !! nm
              = Some (cell g)).
  { apply dict_of_present.
    - rewrite <- list_fmap_compose. exact Hnd.
    - apply list_elem_of_fmap. by exists (nm, g). }
  unfold dict_of in H. rewrite H. by eexists.
Qed.

(** C8, as stated, fails: a variable whose name ends in a NUL
    character is captured and pickled, but the NumPy string array made of
    the names drops the trailing NUL, so in the loaded bundle the lookup of
    the appended name raises [KeyError] instead of returning the value. *)
Lemma C8_counterexample :
  exists w' d,
    _save_warm_start numpy_strict nul_name_world = Return tt w'
    /\ pickle.load (files w') "ws.pickle" = inr d
    /\ var_appended nul_name_world (GRB.mkVar 0 PrimFloat.one PrimFloat.zero)
       = PyFloat PrimFloat.one
    /\ var_lookup d nul_name = inl (KeyError nul_name).
Proof. do 2 eexists. repeat split; reflexivity. Qed.

(** C8, amended: persistence round-trips exactly for names that NumPy
    gives back as stored.  For a session whose variable names are distinct
    and whose constraint names are distinct, none ending in a NUL
    character, and, in a basis capture, whose variable codes lie in -255..0
    and whose constraint codes are 0 or -1: the capture returns normally,
    the file it wrote loads, and looking up the name of any captured
    variable or constraint in the loaded bundle returns the very value that
    was appended for it, the same float or the same code. *)
Theorem C8_round_trip (rt : NumPy) (w : World) (path : string) :
  _write_warm_start (self w) = Some path ->
  NoDup (_pyomo_var_to_solver_var_map (self w)).*1 ->
  NoDup (_pyomo_con_to_solver_con_map (self w)).*1 ->
  Forall numpy_exact
    (_pyomo_var_to_solver_var_map (self w)).*1 ->
  Forall numpy_exact
    (_pyomo_con_to_solver_con_map (self w)).*1 ->
  (_save_c_v_basis (self w) = true ->
   Forall (fun item => -255 <= GRB.VBasis item.2 <= 0)
     (_pyomo_var_to_solver_var_map (self w))
   /\ Forall (fun item => GRB.CBasis item.2 ∈ constraint_basis_codes)
        (_pyomo_con_to_solver_con_map (self w))) ->
  exists w' d,
    _save_warm_start rt w = Return tt w'
    /\ pickle.load (files w') path = inr d
    /\ (forall nm v,
          (nm, v) ∈ _pyomo_var_to_solver_var_map (self w) ->
          var_lookup d nm = inr (var_appended w v))
    /\ (forall nm c,
          (nm, c) ∈ _pyomo_con_to_solver_con_map (self w) ->
          const_lookup d nm = inr (const_appended w c)).
Proof.
  intros Hpath Hndv Hndc Hexv Hexc Hcodes.
  unfold var_appended, const_appended.
  destruct (_save_c_v_basis (self w)) eqn:Hkind.
  - destruct (Hcodes eq_refl) as [Hvr Hcr].
    exists (written path (basis_pickle w) w), (pickle.loads (basis_pickle w)).
    split; [by apply save_basis|].
    split; [unfold pickle.load, written; cbn; by rewrite lookup_insert_eq|].
    split.
    + intros nm v Hin. cbn [var_lookup pickle.loads basis_pickle].
      unfold VBasis.get_component.
      destruct (loaded_lookup vbasis_cell _ nm v Hndv Hexv Hin) as [s' ->].
      cbn. do 2 f_equal. unfold VBasis.decode, vbasis_cell. lia.
    + intros nm c Hin. cbn [const_lookup pickle.loads basis_pickle].
      unfold CBasis.get_component.
      destruct (loaded_lookup cbasis_cell _ nm c Hndc Hexc Hin) as [s' ->].
      cbn. do 2 f_equal. unfold CBasis.decode, cbasis_cell.
      rewrite Forall_forall in Hcr. specialize (Hcr _ Hin). cbn in Hcr.
      unfold constraint_basis_codes in Hcr.
      rewrite !elem_of_cons, elem_of_nil in Hcr.
      destruct Hcr as [->|[->|[]]]; reflexivity.
  - exists (written path (start_pickle w) w), (pickle.loads (start_pickle w)).
    split; [by apply save_start|].
    split; [unfold pickle.load, written; cbn; by rewrite lookup_insert_eq|].
    split.
    + intros nm v Hin. cbn [var_lookup pickle.loads start_pickle].
      by destruct (loaded_lookup GRB.X _ nm v Hndv Hexv Hin) as [s' ->].
    + intros nm c Hin. cbn [const_lookup pickle.loads start_pickle].
      by destruct (loaded_lookup GRB.Pi _ nm c Hndc Hexc Hin) as [s' ->].
Qed.

Lemma C8_round_trip_witness :
  NoDup ["x"; "y"] /\ NoDup ["c"]
  /\ Forall numpy_exact ["x"; "y"] /\ Forall numpy_exact ["c"]
  /\ exists w' d,
       _save_warm_start numpy_strict solved_world = Return tt w'
       /\ pickle.load (files w') "ws.pickle" = inr d
       /\ (forall nm v,
             (nm, v) ∈ _pyomo_var_to_solver_var_map
                         (self solved_world) ->
             var_lookup d nm = inr (var_appended solved_world v))
       /\ (forall nm c,
             (nm, c) ∈ _pyomo_con_to_solver_con_map
                         (self solved_world) ->
             const_lookup d nm = inr (const_appended solved_world c)).
Proof.
  assert (Hv : NoDup ["x"; "y"]).
  { apply NoDup_cons. split; [|apply NoDup_singleton].
    rewrite elem_of_cons, elem_of_nil. intros [H|[]]. discriminate H. }
  assert (Hc : NoDup ["c"]) by apply NoDup_singleton.
  assert (Hxv : Forall numpy_exact ["x"; "y"]) by (repeat constructor).
  assert (Hxc : Forall numpy_exact ["c"]) by (repeat constructor).
  repeat (split; [assumption|]).
  apply (C8_round_trip numpy_strict solved_world "ws.pickle" eq_refl Hv Hc Hxv Hxc).
  intros _. split; repeat constructor; cbn; lia.
Defined.

Example round_trip_values :
  exists w' d,
    _save_warm_start numpy_strict solved_world = Return tt w'
    /\ pickle.load (files w') "ws.pickle" = inr d
    /\ var_lookup d "x" = inr (PyInt 0)
    /\ var_lookup d "y" = inr (PyInt (-2))
    /\ const_lookup d "c" = inr (PyInt (-1))
    /\ var_lookup d "z" = inl (KeyError "z").
Proof. do 2 eexists. repeat split; reflexivity. Qed.

Example round_trip_floats :
  exists w' d,
    _save_warm_start numpy_strict solved_start_world = Return tt w'
    /\ pickle.load (files w') "ws.pickle" = inr d
    /\ var_lookup d "x" = inr (PyFloat PrimFloat.one)
    /\ var_lookup d "y" = inr (PyFloat PrimFloat.two)
    /\ const_lookup d "c" = inr (PyFloat PrimFloat.one).
Proof. do 2 eexists. repeat split; reflexivity. Qed.

(** * Further properties of the module *)

(** ** Lookups *)

Section index_facts.
Context {V : Type}.
Implicit Types (names : list string) (vals : list V) (d : gmap string V).

Lemma zip_names_absent names vals k :
  k ∉ names -> k ∉ (zip names vals).*1.
Proof.
  intros Hk Hin. apply list_elem_of_fmap in Hin as ([k' v] & -> & Hin).
  apply Hk. by apply elem_of_zip_l in Hin.
Qed.

(** The pair at the last position that holds [k] decides the entry of
    [k]. *)
Lemma dict_of_zip_last names : forall vals i d k v,
  names !! i = Some k -> vals !! i = Some v ->
  (forall j, (i < j)%nat -> names !! j <> Some k) ->
  dict_of (zip names vals) d !! k = Some v.
Proof.
  induction names as [|k0 names IH]; intros vals i d k v Hn Hv Hlast; [done|].
  destruct vals as [|v0 vals]; [done|]. cbn [zip zip_with].
  rewrite dict_of_cons. destruct i as [|i].
  - injection Hn as ->. injection Hv as ->.
    rewrite dict_of_absent; [apply lookup_insert_eq|].
    apply zip_names_absent. intros Hin.
    apply list_elem_of_lookup in Hin as [j Hj].
    by apply (Hlast (S j)); [lia|].
  - apply (IH vals i); [done..|].
    intros j Hj. apply (Hlast (S j)). lia.
Qed.

End index_facts.

(** X1: with a name saved more than once, a lookup answers with the
    value saved last: on a store that has not been looked up yet, if [k] is
    the name in cell [i], with value [v], and in no later cell, then looking
    up [k] returns [v]. *)
Theorem last_saved_value_wins {V : Type} (s : PicklableData.t V) (i : nat)
  (k : string) (v : V) :
  PicklableData._dict s = None ->
  PicklableData._names s !! i = Some k ->
  PicklableData._vals s !! i = Some v ->
  (forall j, (i < j)%nat -> PicklableData._names s !! j <> Some k) ->
  exists s', PicklableData.get_component s k = Return v s'.
Proof.
  intros Hnone Hn Hv Hlast. rewrite get_component_served.
  unfold served. rewrite Hnone. unfold PicklableData.getitem.
  pose proof (dict_of_zip_last _ _ i ∅ k v Hn Hv Hlast) as H.
  unfold dict_of in H. unfold PicklableData._get_dict. rewrite H. by eexists.
Qed.

Lemma last_saved_value_wins_witness :
  PicklableData._names (PicklableData.__setstate__ (["a"; "b"; "a"], [1; 2; 3])) !! 2%nat
  = Some "a"
  /\ exists s',
       PicklableData.get_component
         (PicklableData.__setstate__ (["a"; "b"; "a"], [1; 2; 3])) "a"
       = Return 3 s'.
Proof.
  split; [reflexivity|].
  apply (last_saved_value_wins
           (PicklableData.__setstate__ (["a"; "b"; "a"], [1; 2; 3])) 2 "a" 3);
    [reflexivity|reflexivity|reflexivity|].
  intros j Hj. destruct j as [|[|[|j]]]; [lia|lia|lia|]. discriminate.
Defined.

(** X2: looking up a name that is in none of the name cells raises
    [KeyError] for that name; the failed lookup has nonetheless built and
    cached the index, and every later lookup is answered from it. *)
Theorem unknown_name_raises_KeyError {V : Type} (s : PicklableData.t V)
  (k : string) :
  PicklableData._dict s = None ->
  k ∉ PicklableData._names s ->
  exists s',
    PicklableData.get_component s k = Raise (KeyError k) s'
    /\ PicklableData._dict s' = Some (PicklableData._get_dict s)
    /\ forall k',
         PicklableData.get_component s' k'
         = PicklableData.getitem (PicklableData._get_dict s) k' s'.
Proof.
  intros Hnone Hk. eexists. split; [|split].
  - rewrite get_component_served. unfold served. rewrite Hnone.
    unfold PicklableData.getitem, PicklableData._get_dict.
    pose proof (dict_of_absent (zip (PicklableData._names s) (PicklableData._vals s))
                  ∅ k (zip_names_absent _ _ _ Hk)) as H.
    unfold dict_of in H. rewrite H, lookup_empty. reflexivity.
  - rewrite get_component_state. cbn. unfold served. by rewrite Hnone.
  - intros k'. rewrite get_component_state.
    unfold PicklableData.get_component. cbn. unfold served. by rewrite Hnone.
Qed.

Lemma unknown_name_raises_KeyError_witness :
  ("z" ∉ ["a"; "b"])
  /\ exists s',
       PicklableData.get_component (PicklableData.__setstate__ (["a"; "b"], [1; 2])) "z"
       = Raise (KeyError "z") s'
       /\ PicklableData._dict s'
          = Some (PicklableData._get_dict (PicklableData.__setstate__ (["a"; "b"], [1; 2])))
       /\ forall k',
            PicklableData.get_component s' k'
            = PicklableData.getitem
                (PicklableData._get_dict (PicklableData.__setstate__ (["a"; "b"], [1; 2])))
                k' s'.
Proof.
  assert (H : "z" ∉ ["a"; "b"]).
  { rewrite !elem_of_cons, elem_of_nil. intros [H|[H|[]]]; discriminate H. }
  split; [exact H|].
  exact (unknown_name_raises_KeyError
           (PicklableData.__setstate__ (["a"; "b"], [1; 2])) "z" eq_refl H).
Defined.

(** ** The codecs outside their intended codes *)

(** X3: a variable code [c] with -2^31 < c < 2^31 saved into a fresh
    [VBasis] store and looked up again.  If the save returns, the cell
    holds a byte and the lookup returns the negated byte, which is [c]
    exactly when [c] lies in -255..0.  A NumPy that rejects out-of-range
    integers raises [OverflowError] for the codes outside -255..0 and for
    those only; a NumPy that wraps stores the negated code modulo 256. *)
Theorem vbasis_exact_iff_in_range (rt : NumPy) (name : string) (c : Z) :
  - 2 ^ 31 < c < 2 ^ 31 ->
  match VBasis.save_component rt (VBasis.__init__ rt 1) name c with
  | Return _ s =>
      exists u s',
        PicklableData._vals s = [u] /\ 0 <= u <= 255
        /\ VBasis.get_component s name = Return (- u) s'
        /\ (- u = c <-> -255 <= c <= 0)
  | Raise e _ => e = OverflowError /\ strict_cast rt = true /\ ~ (-255 <= c <= 0)
  end
  /\ (strict_cast rt = true -> ~ (-255 <= c <= 0) ->
      exists s,
        VBasis.save_component rt (VBasis.__init__ rt 1) name c = Raise OverflowError s)
  /\ (strict_cast rt = false ->
      exists s,
        VBasis.save_component rt (VBasis.__init__ rt 1) name c = Return tt s
        /\ PicklableData._vals s = [(- c) mod 256]).
Proof.
  intros _.
  pose proof (Z.mod_pos_bound (c * -1) 256 eq_refl) as Hmod.
  assert (Hraise : forall e, np.uint8 rt (c * -1) = inl e ->
            exists s,
              VBasis.save_component rt (VBasis.__init__ rt 1) name c = Raise e s).
  { intros e He. eexists. unfold VBasis.save_component, VBasis.__init__,
      PicklableData.save_component. cbn. by rewrite He. }
  destruct (np.uint8 rt (c * -1)) as [e|u] eqn:Hcell.
  - destruct (Hraise e eq_refl) as [s Hs].
    unfold np.uint8 in Hcell.
    destruct (decide (0 <= c * -1 <= 255)); [done|].
    destruct (strict_cast rt) eqn:Hstrict; [|done]. injection Hcell as <-.
    rewrite Hs. repeat split; [lia| |discriminate]. by exists s.
  - destruct (vbasis_one_cell rt name c u Hcell) as (s & s' & Hsave & Hu & Hget).
    unfold np.uint8 in Hcell. rewrite Hsave.
    destruct (decide (0 <= c * -1 <= 255)) as [Hin|Hout].
    + injection Hcell as <-. split; [|split].
      * exists (c * -1), s'. repeat split; try lia; try done.
        unfold VBasis.decode in Hget. rewrite Hget. do 2 f_equal. lia.
      * intros _ Hc. lia.
      * intros _. exists s. split; [done|]. rewrite Hu. f_equal.
        rewrite <- (Z.mod_small (c * -1) 256) by lia. f_equal. lia.
    + destruct (strict_cast rt) eqn:Hstrict; [done|]. injection Hcell as <-.
      split; [|split].
      * exists ((c * -1) mod 256), s'. repeat split; try lia; try done.
        unfold VBasis.decode in Hget. rewrite Hget. do 2 f_equal. lia.
      * discriminate.
      * intros _. exists s. split; [done|]. rewrite Hu. do 2 f_equal. lia.
Qed.

Lemma vbasis_exact_iff_in_range_witness :
  - 2 ^ 31 < 1 < 2 ^ 31
  /\ exists s,
       VBasis.save_component numpy_wrapping (VBasis.__init__ numpy_wrapping 1) "x" 1
       = Return tt s
       /\ PicklableData._vals s = [(- 1) mod 256].
Proof.
  assert (H : - 2 ^ 31 < 1 < 2 ^ 31) by lia.
  split; [exact H|].
  exact (proj2 (proj2 (vbasis_exact_iff_in_range numpy_wrapping "x" 1 H)) eq_refl).
Defined.

(** X4: a constraint code goes through [CBasis] as its truth value.
    Saved and looked up again, the code 0 comes back as 0 and every other
    code as -1, so the code comes back unchanged exactly when it is 0 or
    -1. *)
Theorem cbasis_keeps_only_truth (rt : NumPy) (name : string) (c : Z) :
  exists s s',
    CBasis.save_component (CBasis.__init__ rt 1) name c = Return tt s
    /\ CBasis.get_component s name = Return (if (c =? 0)%Z then 0 else -1) s'
    /\ ((if (c =? 0)%Z then 0 else -1) = c <-> c = 0 \/ c = -1).
Proof.
  assert (Hb : np.bool c = inr (negb (c =? 0)%Z)) by reflexivity.
  unfold CBasis.save_component, CBasis.__init__.
  destruct (c =? 0)%Z eqn:E;
    (erewrite save_component_room; [|reflexivity|cbn; lia|cbn; lia|exact Hb]);
    do 2 eexists; (split; [reflexivity|]); split;
    try (unfold CBasis.get_component, PicklableData.get_component,
           PicklableData._get_dict, PicklableData.getitem; cbn;
         rewrite lookup_insert_eq; reflexivity).
  - apply Z.eqb_eq in E. lia.
  - apply Z.eqb_neq in E. lia.
Qed.

(** ** Pickling a store *)

(** X5: what survives the pickle of a store.  The store rebuilt from
    the state that [__getstate__] returned has the same names (when NumPy
    gives them back as stored) and the same values, but neither the cached
    index nor the counters: it serves the current content of the arrays
    even if the pickled store was serving an older index, it rejects every
    append with [AttributeError], and it cannot be pickled again. *)
Theorem pickled_store_keeps_arrays_only {R V : Type} (val_dtype : R -> exn + V)
  (s : PicklableData.t V) (ws : list Warning) (st : PicklableData.state V) :
  PicklableData.__getstate__ s = inr (ws, st) ->
  Forall numpy_exact (PicklableData._names s) ->
  PicklableData._names (PicklableData.__setstate__ st) = PicklableData._names s
  /\ PicklableData._vals (PicklableData.__setstate__ st) = PicklableData._vals s
  /\ served (PicklableData.__setstate__ st) = PicklableData._get_dict s
  /\ (forall nm val,
        PicklableData.save_component val_dtype (PicklableData.__setstate__ st) nm val
        = Raise (AttributeError "next_index") (PicklableData.__setstate__ st))
  /\ PicklableData.__getstate__ (PicklableData.__setstate__ st)
     = inl (AttributeError "next_index").
Proof.
  intros Hst Hexact. unfold PicklableData.__getstate__ in Hst.
  destruct (PicklableData.next_index s) as [i|]; [|done].
  destruct (PicklableData.n s) as [m|]; [|done].
  injection Hst as _ <-. rewrite (np_array_exact _ Hexact).
  repeat split.
Qed.

Lemma pickled_store_keeps_arrays_only_witness :
  Forall numpy_exact ["a"; ""]
  /\ served (PicklableData.__setstate__ (V := Z) (["a"; ""], [1; 170]))
     = PicklableData._get_dict
         (state_of (VBasis.save_component numpy_strict
                      (VBasis.__init__ numpy_strict 2) "a" (-1))).
Proof.
  assert (H : Forall numpy_exact ["a"; ""]) by (repeat constructor).
  split; [exact H|].
  exact (proj1 (proj2 (proj2
           (pickled_store_keeps_arrays_only (np.uint8 numpy_strict)
              (state_of (VBasis.save_component numpy_strict
                           (VBasis.__init__ numpy_strict 2) "a" (-1)))
              [PicklingMoreThanNecessary] (["a"; ""], [1; 170]) eq_refl H)))).
Defined.

(** X6: pickling a store that is not full.  After [k <= size] entries
    were saved into a fresh store made for [size], [__getstate__] returns
    all [size] cells, the [size - k] unused ones with empty names and
    uninitialised values, and warns ("Pickling more data than necessary")
    exactly when [k < size]. *)
Theorem pickling_warns_iff_not_full {R V G : Type} (val_dtype : R -> exn + V)
  (getAttr : G -> R) (uninit : nat -> V) (size : nat)
  (items : list (string * G)) (vs : list V) :
  (length items <= size)%nat ->
  converted val_dtype getAttr items vs ->
  exists s,
    save_all (PicklableData.save_component val_dtype) getAttr items
      (PicklableData.__init__ uninit size) = Return tt s
    /\ PicklableData.__getstate__ s
       = inr (if decide (length items = size) then []
              else [PicklingMoreThanNecessary],
              (np.array (items.*1 ++ replicate (size - length items) ""),
               vs ++ drop (length items) (np.empty uninit size))).
Proof.
  intros Hk Hconv. eexists. split; [by apply save_all_init|]. reflexivity.
Qed.

Lemma pickling_warns_iff_not_full_witness :
  converted (np.uint8 numpy_strict) id [("a", 1)] [1]
  /\ exists s,
       save_all (PicklableData.save_component (np.uint8 numpy_strict)) id [("a", 1)]
         (PicklableData.__init__ (fun _ => 170) 2) = Return tt s
       /\ PicklableData.__getstate__ s
          = inr ([PicklingMoreThanNecessary], (["a"; ""], [1; 170])).
Proof.
  assert (H : converted (np.uint8 numpy_strict) id [("a", 1)] [1])
    by (repeat constructor).
  split; [exact H|].
  exact (pickling_warns_iff_not_full (np.uint8 numpy_strict) id (fun _ => 170) 2
           [("a", 1)] [1] (le_S _ _ (le_n _)) H).
Defined.

(** ** Restoring: failures, frame and composition *)

Section restored_facts.
Context {A G : Type}.
Variable setAttr : A -> G -> G.
Variable dflt : A.
Implicit Types (index : gmap string A) (items : list (string * G)).

Lemma restored_names index items :
  (restored setAttr dflt index items).*1 = items.*1.
Proof. unfold restored. rewrite <- list_fmap_compose. by apply list_fmap_ext. Qed.

Lemma restored_keeps {B} (p : G -> B) index items :
  (forall a g, p (setAttr a g) = p g) ->
  p <$> (restored setAttr dflt index items).*2 = p <$> items.*2.
Proof.
  intros Hp. unfold restored. rewrite <- !list_fmap_compose.
  apply list_fmap_ext. intros i [nm g] _. cbn. apply Hp.
Qed.

Lemma restored_hit index items nm g a :
  (nm, g) ∈ items -> index !! nm = Some a ->
  (nm, setAttr a g) ∈ restored setAttr dflt index items.
Proof.
  intros Hin Hsome. unfold restored.
  apply list_elem_of_fmap. exists (nm, g). cbn. by rewrite Hsome.
Qed.

Lemma restored_ext index1 index2 items :
  (forall nm, nm ∈ items.*1 -> index1 !! nm = index2 !! nm) ->
  restored setAttr dflt index1 items = restored setAttr dflt index2 items.
Proof.
  intros Hagree. unfold restored. apply list_fmap_ext. intros i [nm g] Hi. cbn.
  rewrite Hagree; [done|]. apply list_elem_of_fmap. exists (nm, g).
  split; [done|]. by eapply list_elem_of_lookup_2.
Qed.

Lemma missed_ext index1 index2 items :
  (forall nm, nm ∈ items.*1 -> index1 !! nm = index2 !! nm) ->
  missed index1 items = missed index2 items.
Proof.
  intros Hagree. unfold missed.
  induction items.*1 as [|nm names IH]; [done|].
  rewrite !filter_cons, IH by (intros nm' Hin; apply Hagree; by right).
  rewrite (Hagree nm) by by left. done.
Qed.

Lemma missed_none index items :
  (forall nm, nm ∈ items.*1 -> is_Some (index !! nm)) -> missed index items = [].
Proof.
  intros Hall. unfold missed.
  induction items.*1 as [|nm names IH]; [done|].
  rewrite filter_cons, IH by (intros nm' Hin; apply Hall; by right).
  destruct (Hall nm) as [a Ha]; [by left|]. rewrite decide_False; [done|].
  by rewrite Ha.
Qed.

Lemma restored_twice index items :
  (forall a b g, setAttr a (setAttr b g) = setAttr a g) ->
  restored setAttr dflt index (restored setAttr dflt index items)
  = restored setAttr dflt index items.
Proof.
  intros Hset. unfold restored. rewrite <- list_fmap_compose.
  apply list_fmap_ext. intros i [nm g] _. cbn. by rewrite Hset.
Qed.

Lemma missed_restored index index' items :
  missed index (restored setAttr dflt index' items) = missed index items.
Proof. unfold missed. by rewrite restored_names. Qed.

End restored_facts.



(** X8: what a successful restore leaves alone.  It changes neither the
    files nor the options of the solver, keeps the names and the order of
    both component maps, and writes only the attributes it restores: the
    solution values [X] and [Pi] are never touched, a basis restore keeps
    every [PStart] and [DStart], and a start restore keeps every [VBasis]
    and [CBasis]. *)
Theorem restore_touches_only_its_attributes
  (GurobiDirect_warm_start : World -> outcome World unit)
  (w : World) (path : string) (d : WarmStartData) :
  IsMIP (self w) = false ->
  _read_warm_start (self w) = Some path ->
  pickle.load (files w) path = inr d ->
  exists w',
    _warm_start GurobiDirect_warm_start w = Return tt w'
    /\ files w' = files w
    /\ IsMIP (self w') = IsMIP (self w)
    /\ _write_warm_start (self w') = _write_warm_start (self w)
    /\ _read_warm_start (self w') = _read_warm_start (self w)
    /\ _save_c_v_basis (self w') = _save_c_v_basis (self w)
    /\ (_pyomo_var_to_solver_var_map (self w')).*1
       = (_pyomo_var_to_solver_var_map (self w)).*1
    /\ (_pyomo_con_to_solver_con_map (self w')).*1
       = (_pyomo_con_to_solver_con_map (self w)).*1
    /\ GRB.X <$> (_pyomo_var_to_solver_var_map (self w')).*2
       = GRB.X <$> (_pyomo_var_to_solver_var_map (self w)).*2
    /\ GRB.Pi <$> (_pyomo_con_to_solver_con_map (self w')).*2
       = GRB.Pi <$> (_pyomo_con_to_solver_con_map (self w)).*2
    /\ if use_c_v_basis d
       then GRB.PStart <$> (_pyomo_var_to_solver_var_map (self w')).*2
            = GRB.PStart <$> (_pyomo_var_to_solver_var_map (self w)).*2
            /\ GRB.DStart <$> (_pyomo_con_to_solver_con_map (self w')).*2
               = GRB.DStart <$> (_pyomo_con_to_solver_con_map (self w)).*2
       else GRB.VBasis <$> (_pyomo_var_to_solver_var_map (self w')).*2
            = GRB.VBasis <$> (_pyomo_var_to_solver_var_map (self w)).*2
            /\ GRB.CBasis <$> (_pyomo_con_to_solver_con_map (self w')).*2
               = GRB.CBasis <$> (_pyomo_con_to_solver_con_map (self w)).*2.
Proof.
  intros Hlp Hpath Hload. exists (warm_started d w).
  split; [by eapply warm_start_continuous|].
  destruct d as [vd cd|vd cd]; cbn;
    repeat split; try apply restored_names; by apply restored_keeps.
Qed.

Lemma restore_touches_only_its_attributes_witness :
  pickle.load (files partial_world) "ws.pickle"
  = inr (pickle.loads (pickle.PCVBasis (["x1"; "x2"], [2; 0]) ([], [])))
  /\ exists w',
       _warm_start GurobiDirect_no_values partial_world = Return tt w'
       /\ files w' = files partial_world.
Proof.
  split; [reflexivity|].
  destruct (restore_touches_only_its_attributes GurobiDirect_no_values partial_world
              "ws.pickle"
              (pickle.loads (pickle.PCVBasis (["x1"; "x2"], [2; 0]) ([], [])))
              eq_refl eq_refl eq_refl) as (w' & Hres & Hfiles & _).
  exists w'. split; [exact Hres|exact Hfiles].
Defined.

(** X9: what a restore does with the names it finds.  A variable or
    constraint whose name the bundle holds gets the stored value (for a
    basis bundle the negated byte, and -1 or 0 for the stored boolean), and
    when the bundle holds every name of the session no warning at all is
    issued. *)
Theorem restore_sets_found_values
  (GurobiDirect_warm_start : World -> outcome World unit)
  (w : World) (path : string) (d : WarmStartData) :
  IsMIP (self w) = false ->
  _read_warm_start (self w) = Some path ->
  pickle.load (files w) path = inr d ->
  exists w',
    _warm_start GurobiDirect_warm_start w = Return tt w'
    /\ match d with
       | CVBasisData vd cd =>
           (forall nm g u,
              (nm, g) ∈ _pyomo_var_to_solver_var_map (self w) ->
              served vd !! nm = Some u ->
              (nm, GRB.set_VBasis (- u) g) ∈ _pyomo_var_to_solver_var_map (self w'))
           /\ (forall nm c b,
                 (nm, c) ∈ _pyomo_con_to_solver_con_map (self w) ->
                 served cd !! nm = Some b ->
                 (nm, GRB.set_CBasis (if b : bool then -1 else 0) c)
                 ∈ _pyomo_con_to_solver_con_map (self w'))
           /\ ((forall nm, nm ∈ (_pyomo_var_to_solver_var_map (self w)).*1 ->
                           is_Some (served vd !! nm)) ->
               (forall nm, nm ∈ (_pyomo_con_to_solver_con_map (self w)).*1 ->
                           is_Some (served cd !! nm)) ->
               warned w' = warned w)
       | StartData vd cd =>
           (forall nm g x,
              (nm, g) ∈ _pyomo_var_to_solver_var_map (self w) ->
              served vd !! nm = Some x ->
              (nm, GRB.set_PStart x g) ∈ _pyomo_var_to_solver_var_map (self w'))
           /\ (forall nm c x,
                 (nm, c) ∈ _pyomo_con_to_solver_con_map (self w) ->
                 served cd !! nm = Some x ->
                 (nm, GRB.set_DStart x c) ∈ _pyomo_con_to_solver_con_map (self w'))
           /\ ((forall nm, nm ∈ (_pyomo_var_to_solver_var_map (self w)).*1 ->
                           is_Some (served vd !! nm)) ->
               (forall nm, nm ∈ (_pyomo_con_to_solver_con_map (self w)).*1 ->
                           is_Some (served cd !! nm)) ->
               warned w' = warned w)
       end.
Proof.
  intros Hlp Hpath Hload. exists (warm_started d w).
  split; [by eapply warm_start_continuous|].
  destruct d as [vd cd|vd cd]; cbn; (split; [|split]).
  - intros nm g u Hin Hu. apply restored_hit; [done|].
    rewrite lookup_fmap, Hu. cbn. unfold VBasis.decode. f_equal. lia.
  - intros nm c b Hin Hb. apply restored_hit; [done|].
    by rewrite lookup_fmap, Hb.
  - intros Hv Hc. rewrite !missed_none, app_nil_r; [done|..];
      intros nm Hin; rewrite lookup_fmap; by apply fmap_is_Some; auto.
  - intros nm g x Hin Hx. by apply restored_hit.
  - intros nm c x Hin Hx. by apply restored_hit.
  - intros Hv Hc. by rewrite !missed_none, app_nil_r.
Qed.

Lemma restore_sets_found_values_witness :
  pickle.load (files resumed_world) "ws.pickle"
  = inr (pickle.loads (pickle.PCVBasis (["x"; "y"], [0; 2]) (["c"], [true])))
  /\ exists w',
       _warm_start GurobiDirect_no_values resumed_world = Return tt w'
       /\ (("y", GRB.set_VBasis (- 2) (GRB.mkVar (-1) PrimFloat.zero PrimFloat.zero))
           ∈ _pyomo_var_to_solver_var_map (self w')).
Proof.
  split; [reflexivity|].
  destruct (restore_sets_found_values GurobiDirect_no_values resumed_world
              "ws.pickle"
              (pickle.loads (pickle.PCVBasis (["x"; "y"], [0; 2]) (["c"], [true])))
              eq_refl eq_refl eq_refl) as (w' & Hres & Hvars & _).
  exists w'. split; [exact Hres|].
  apply (Hvars "y" (GRB.mkVar (-1) PrimFloat.zero PrimFloat.zero) 2);
    [|reflexivity].
  cbn. do 2 right; left.
Defined.

(** X10: entries of the bundle under names the session does not have
    play no part.  Two restores of the same session from two files whose
    bundles are of the same kind and answer alike for every name of the
    session end in the same solver state with the same warnings. *)
Theorem restore_ignores_other_names
  (GurobiDirect_warm_start : World -> outcome World unit)
  (w : World) (files2 : gmap string pickle.file) (path : string)
  (d1 d2 : WarmStartData) :
  IsMIP (self w) = false ->
  _read_warm_start (self w) = Some path ->
  pickle.load (files w) path = inr d1 ->
  pickle.load files2 path = inr d2 ->
  same_answers d1 d2 w ->
  exists w1 w2,
    _warm_start GurobiDirect_warm_start w = Return tt w1
    /\ _warm_start GurobiDirect_warm_start (with_files files2 w) = Return tt w2
    /\ self w2 = self w1
    /\ warned w2 = warned w1.
Proof.
  intros Hlp Hpath Hload1 Hload2 Hsame.
  exists (warm_started d1 w), (warm_started d2 (with_files files2 w)).
  split; [by eapply warm_start_continuous|].
  split; [by eapply warm_start_continuous|].
  destruct d1 as [v1 c1|v1 c1], d2 as [v2 c2|v2 c2]; try done;
    destruct Hsame as [Hv Hc]; cbn.
  - rewrite (restored_ext _ _ (VBasis.decode <$> served v2) (VBasis.decode <$> served v1)),
      (restored_ext _ _ (CBasis.decode <$> served c2) (CBasis.decode <$> served c1)),
      (missed_ext (VBasis.decode <$> served v2) (VBasis.decode <$> served v1)),
      (missed_ext (CBasis.decode <$> served c2) (CBasis.decode <$> served c1));
      [done|intros nm Hin; rewrite !lookup_fmap; f_equal; symmetry; auto..].
  - rewrite (restored_ext _ _ (served v2) (served v1)),
      (restored_ext _ _ (served c2) (served c1)),
      (missed_ext (served v2) (served v1)),
      (missed_ext (served c2) (served c1));
      [done|intros nm Hin; symmetry; auto..].
Qed.

Lemma restore_ignores_other_names_witness :
  same_answers
    (pickle.loads (pickle.PCVBasis (["x1"; "x2"], [2; 0]) ([], [])))
    (pickle.loads (pickle.PCVBasis (["x4"; "x1"; "x2"], [3; 2; 0]) (["c9"], [true])))
    partial_world
  /\ exists w1 w2,
       _warm_start GurobiDirect_no_values partial_world = Return tt w1
       /\ _warm_start GurobiDirect_no_values
            (with_files
               {[ "ws.pickle" := pickle.Pickle
                    (pickle.PCVBasis (["x4"; "x1"; "x2"], [3; 2; 0]) (["c9"], [true])) ]}
               partial_world)
          = Return tt w2
       /\ self w2 = self w1
       /\ warned w2 = warned w1.
Proof.
  assert (H : same_answers
                (pickle.loads (pickle.PCVBasis (["x1"; "x2"], [2; 0]) ([], [])))
                (pickle.loads
                   (pickle.PCVBasis (["x4"; "x1"; "x2"], [3; 2; 0]) (["c9"], [true])))
                partial_world).
  { split; intros nm Hin; cbn in Hin.
    - rewrite !elem_of_cons, elem_of_nil in Hin.
      destruct Hin as [->|[->|[->|[]]]]; reflexivity.
    - by apply elem_of_nil in Hin. }
  split; [exact H|].
  exact (restore_ignores_other_names GurobiDirect_no_values partial_world
           {[ "ws.pickle" := pickle.Pickle
                (pickle.PCVBasis (["x4"; "x1"; "x2"], [3; 2; 0]) (["c9"], [true])) ]}
           "ws.pickle" _ _ eq_refl eq_refl eq_refl eq_refl H).
Defined.

(** X11: restoring twice.  A second restore from the same file right
    after a successful one sets every attribute to the value it already
    has, so the solver state does not change; only the warning, if any, is
    issued a second time. *)
Theorem restore_twice_changes_nothing
  (GurobiDirect_warm_start : World -> outcome World unit)
  (w : World) (path : string) (d : WarmStartData) :
  IsMIP (self w) = false ->
  _read_warm_start (self w) = Some path ->
  pickle.load (files w) path = inr d ->
  exists w1 w2,
    _warm_start GurobiDirect_warm_start w = Return tt w1
    /\ _warm_start GurobiDirect_warm_start w1 = Return tt w2
    /\ self w2 = self w1
    /\ files w2 = files w1
    /\ warned w2 = warned w1 ++ miss_warning (missing_names d w).
Proof.
  intros Hlp Hpath Hload.
  assert (Hlp1 : IsMIP (self (warm_started d w)) = false) by by destruct d.
  assert (Hpath1 : _read_warm_start (self (warm_started d w)) = Some path)
    by by destruct d.
  assert (Hload1 : pickle.load (files (warm_started d w)) path = inr d)
    by by destruct d.
  exists (warm_started d w), (warm_started d (warm_started d w)).
  split; [by eapply warm_start_continuous|].
  split; [by eapply warm_start_continuous|].
  destruct d as [vd cd|vd cd];
    unfold warm_started, missing_names, finished, with_maps;
    cbn [self files warned _pyomo_var_to_solver_var_map
         _pyomo_con_to_solver_con_map IsMIP _write_warm_start _read_warm_start
         _save_c_v_basis];
    rewrite !restored_twice, !missed_restored by by intros a b [].
  all: by repeat split.
Qed.

Lemma restore_twice_changes_nothing_witness :
  IsMIP (self partial_world) = false
  /\ exists w1 w2,
       _warm_start GurobiDirect_no_values partial_world = Return tt w1
       /\ _warm_start GurobiDirect_no_values w1 = Return tt w2
       /\ self w2 = self w1
       /\ files w2 = files w1
       /\ warned w2
          = warned w1
            ++ miss_warning
                 (missing_names
                    (pickle.loads (pickle.PCVBasis (["x1"; "x2"], [2; 0]) ([], [])))
                    partial_world).
Proof.
  split; [reflexivity|].
  exact (restore_twice_changes_nothing GurobiDirect_no_values partial_world
           "ws.pickle"
           (pickle.loads (pickle.PCVBasis (["x1"; "x2"], [2; 0]) ([], [])))
           eq_refl eq_refl eq_refl).
Defined.

(** ** Capturing: frame, failures and composition with a restore *)

Section counts.
Context {R V G : Type}.
Variable val_dtype : R -> exn + V.
Variable getAttr : G -> R.

Import PicklableData.

Lemma save_component_counts (s s' : PicklableData.t V) nm val :
  save_component val_dtype s nm val = Return tt s' ->
  exists i, next_index s = Some i /\ next_index s' = Some (S i) /\ n s' = n s.
Proof.
  unfold save_component. destruct (next_index s) as [i|]; [|done].
  repeat case_decide; try done. destruct (val_dtype val); [done|].
  intros [= <-]. by exists i.
Qed.

Lemma save_all_counts (items : list (string * G)) :
  forall (s s' : PicklableData.t V) i,
    save_all (save_component val_dtype) getAttr items s = Return tt s' ->
    next_index s = Some i ->
    next_index s' = Some (i + length items)%nat /\ n s' = n s.
Proof.
  induction items as [|[nm g] items IH]; intros s s' i Hrun Hi.
  - injection Hrun as <-. by rewrite Nat.add_0_r.
  - cbn [save_all] in Hrun.
    destruct (save_component val_dtype s nm (getAttr g)) as [[] s1|e s1] eqn:E;
      [|done].
    apply save_component_counts in E as (i' & Hi' & Hi1 & Hn1).
    rewrite Hi in Hi'. injection Hi' as <-.
    destruct (IH s1 s' (S i) Hrun Hi1) as [Hnext Hn].
    split; [rewrite Hnext; f_equal; cbn; lia|congruence].
Qed.

(** A store made for as many items as the loop saves is full when the
    loop returns, and pickles without a warning. *)
Lemma filled_getstate (uninit : nat -> V) (items : list (string * G))
  (s' : PicklableData.t V) :
  save_all (save_component val_dtype) getAttr items
    (__init__ uninit (length items)) = Return tt s' ->
  __getstate__ s' = inr ([], (np.array (_names s'), _vals s')).
Proof.
  intros Hrun.
  destruct (save_all_counts items _ s' 0%nat Hrun eq_refl) as [Hnext Hn].
  unfold __getstate__. rewrite Hnext, Hn. cbn. by rewrite decide_True.
Qed.

End counts.

Lemma collect_dumps (rt : NumPy) (w : World) (data : WarmStartData) :
  collect rt w = inr data -> exists p, pickle.dumps data = inr ([], p).
Proof.
  unfold collect. destruct (_save_c_v_basis (self w)).
  - change (VBasis.save_component rt)
      with (PicklableData.save_component (VBasis.encode rt)).
    change CBasis.save_component with (PicklableData.save_component np.bool).
    unfold VBasis.__init__, CBasis.__init__.
    destruct (save_all (PicklableData.save_component (VBasis.encode rt)) _ _ _)
      as [[] vd|e vd] eqn:Ev; [|done].
    destruct (save_all (PicklableData.save_component np.bool) _ _ _)
      as [[] cd|e cd] eqn:Ec; [|done].
    intros [= <-]. unfold pickle.dumps.
    rewrite (filled_getstate _ _ _ _ _ Ev), (filled_getstate _ _ _ _ _ Ec).
    by eexists.
  - destruct (save_all (PicklableData.save_component np.float64) GRB.X _ _)
      as [[] vd|e vd] eqn:Ev; [|done].
    destruct (save_all (PicklableData.save_component np.float64) GRB.Pi _ _)
      as [[] cd|e cd] eqn:Ec; [|done].
    intros [= <-]. unfold pickle.dumps.
    rewrite (filled_getstate _ _ _ _ _ Ev), (filled_getstate _ _ _ _ _ Ec).
    by eexists.
Qed.

(** A capture that returns has written one pickle and changed nothing
    else; one that raises has changed nothing. *)
Lemma save_warm_start_outcome (rt : NumPy) (w : World) :
  match _save_warm_start rt w with
  | Return _ w' =>
      self w' = self w /\ warned w' = warned w
      /\ exists path p,
           _write_warm_start (self w) = Some path
           /\ files w' = <[path := pickle.Pickle p]> (files w)
  | Raise e w' => w' = w
  end.
Proof.
  unfold _save_warm_start. destruct (collect rt w) as [e|data] eqn:Hc; [done|].
  destruct (_write_warm_start (self w)) as [path|]; [|done].
  destruct (collect_dumps rt w data Hc) as [p ->].
  cbn. rewrite app_nil_r. repeat split. by exists path, p.
Qed.

Lemma save_component_lengths {R V : Type} (val_dtype : R -> exn + V)
  (s s' : PicklableData.t V) nm val :
  PicklableData.save_component val_dtype s nm val = Return tt s' ->
  length (PicklableData._names s') = length (PicklableData._names s)
  /\ length (PicklableData._vals s') = length (PicklableData._vals s).
Proof.
  unfold PicklableData.save_component.
  destruct (PicklableData.next_index s) as [i|]; [|done].
  repeat case_decide; try done. destruct (val_dtype val); [done|].
  intros [= <-]. cbn. by rewrite !length_insert.
Qed.

Lemma save_all_lengths {R V G : Type} (val_dtype : R -> exn + V)
  (getAttr : G -> R) (items : list (string * G)) :
  forall (s s' : PicklableData.t V),
    save_all (PicklableData.save_component val_dtype) getAttr items s = Return tt s' ->
    length (PicklableData._names s') = length (PicklableData._names s)
    /\ length (PicklableData._vals s') = length (PicklableData._vals s).
Proof.
  induction items as [|[nm g] items IH]; intros s s' Hrun.
  - by injection Hrun as <-.
  - cbn [save_all] in Hrun.
    destruct (PicklableData.save_component val_dtype s nm (getAttr g))
      as [[] s1|e s1] eqn:E; [|done].
    apply save_component_lengths in E as [Hn Hv].
    destruct (IH s1 s' Hrun) as [Hn' Hv']. split; congruence.
Qed.

(** The pickled state of a store that a loop has filled has one name
    and one value per item. *)
Lemma filled_lengths {R V G : Type} (val_dtype : R -> exn + V) (getAttr : G -> R)
  (uninit : nat -> V) (items : list (string * G)) (s' : PicklableData.t V) :
  save_all (PicklableData.save_component val_dtype) getAttr items
    (PicklableData.__init__ uninit (length items)) = Return tt s' ->
  length (np.array (PicklableData._names s')) = length items
  /\ length (PicklableData._vals s') = length items.
Proof.
  intros Hrun. apply save_all_lengths in Hrun as [Hn Hv].
  unfold np.array. rewrite length_fmap, Hn, Hv. cbn. unfold np.empty.
  by rewrite length_replicate, length_fmap, length_seq.
Qed.

Lemma collect_fits (rt : NumPy) (w : World) (data : WarmStartData) :
  collect rt w = inr data ->
  exists p, pickle.dumps data = inr ([], p) /\ pickle_fits p w.
Proof.
  unfold collect, pickle_fits. destruct (_save_c_v_basis (self w)).
  - change (VBasis.save_component rt)
      with (PicklableData.save_component (VBasis.encode rt)).
    change CBasis.save_component with (PicklableData.save_component np.bool).
    unfold VBasis.__init__, CBasis.__init__.
    destruct (save_all (PicklableData.save_component (VBasis.encode rt)) _ _ _)
      as [[] vd|e vd] eqn:Ev; [|done].
    destruct (save_all (PicklableData.save_component np.bool) _ _ _)
      as [[] cd|e cd] eqn:Ec; [|done].
    intros [= <-]. unfold pickle.dumps.
    rewrite (filled_getstate _ _ _ _ _ Ev), (filled_getstate _ _ _ _ _ Ec).
    eexists. split; [reflexivity|]. cbn [fst snd].
    destruct (filled_lengths _ _ _ _ _ Ev), (filled_lengths _ _ _ _ _ Ec).
    by repeat split.
  - destruct (save_all (PicklableData.save_component np.float64) GRB.X _ _)
      as [[] vd|e vd] eqn:Ev; [|done].
    destruct (save_all (PicklableData.save_component np.float64) GRB.Pi _ _)
      as [[] cd|e cd] eqn:Ec; [|done].
    intros [= <-]. unfold pickle.dumps.
    rewrite (filled_getstate _ _ _ _ _ Ev), (filled_getstate _ _ _ _ _ Ec).
    eexists. split; [reflexivity|]. cbn [fst snd].
    destruct (filled_lengths _ _ _ _ _ Ev), (filled_lengths _ _ _ _ _ Ec).
    by repeat split.
Qed.

(** X12: what a capture that returns has done.  The solver object and
    the warnings are as before (the stores are made for exactly the
    components saved, so the "Pickling more data than necessary" warning
    never fires), and the files differ only at the write path, which now
    holds a pickle of the kind asked for with one name and one value per
    variable and per constraint. *)
Theorem returning_capture_writes_one_pickle (rt : NumPy) (w w' : World) :
  _save_warm_start rt w = Return tt w' ->
  self w' = self w /\ warned w' = warned w
  /\ exists path p,
       _write_warm_start (self w) = Some path
       /\ files w' = <[path := pickle.Pickle p]> (files w)
       /\ pickle_fits p w
       /\ forall other, other <> path -> files w' !! other = files w !! other.
Proof.
  unfold _save_warm_start. destruct (collect rt w) as [e|data] eqn:Hc; [done|].
  destruct (_write_warm_start (self w)) as [path|]; [|done].
  destruct (collect_fits rt w data Hc) as (p & -> & Hfits).
  intros [= <-]. cbn. rewrite app_nil_r. repeat split.
  exists path, p. repeat split; [done|].
  intros other Hne. by apply lookup_insert_ne.
Qed.

Lemma returning_capture_writes_one_pickle_witness :
  _save_warm_start numpy_strict solved_world
  = Return tt
      (written "ws.pickle" (pickle.PCVBasis (["x"; "y"], [0; 2]) (["c"], [true]))
         solved_world)
  /\ warned
       (written "ws.pickle" (pickle.PCVBasis (["x"; "y"], [0; 2]) (["c"], [true]))
          solved_world)
     = warned solved_world.
Proof.
  split; [reflexivity|].
  exact (proj1 (proj2 (returning_capture_writes_one_pickle numpy_strict solved_world
                         _ eq_refl))).
Defined.

(** The index of a store rebuilt from the pickle of a full store holds,
    under the name of each item, the cell of that item. *)
Lemma loaded_index {V G} (cell : G -> V) (items : list (string * G)) nm g :
  NoDup items.*1 -> Forall numpy_exact items.*1 -> (nm, g) ∈ items ->
  served (PicklableData.__setstate__ (np.array items.*1, cell <$> items.*2)) !! nm
  = Some (cell g).
Proof.
  intros Hnd Hexact Hin. unfold served, PicklableData._get_dict.
  cbn [PicklableData.__setstate__ PicklableData._dict PicklableData._names
       PicklableData._vals fst snd].
  rewrite (np_array_exact _ Hexact), zip_pairs.
  assert (H : dict_of ((fun x => (x.1, cell x.2)) <$> items) ∅ !! nm
              = Some (cell g)).
  { apply dict_of_present.
    - rewrite <- list_fmap_compose. exact Hnd.
    - apply list_elem_of_fmap. by exists (nm, g). }
  exact H.
Qed.

Lemma named_item {G} (items : list (string * G)) nm :
  nm ∈ items.*1 -> exists g, (nm, g) ∈ items.
Proof.
  intros Hin. apply list_elem_of_fmap in Hin as ([nm' g] & -> & Hin). by exists g.
Qed.

(** X13: a capture carried into a later run.  Let a session be
    captured (names distinct and given back by NumPy as stored; in a basis
    capture, variable codes in -255..0 and constraint codes 0 or -1), and
    let a later continuous session restore from the file that was written.
    Then the restore returns, every variable and constraint of the later
    session that has a namesake in the captured one gets the namesake's
    captured value ([VBasis] and [CBasis], or [X] as [PStart] and [Pi] as
    [DStart]), and if every name of the later session was captured no
    warning is issued. *)
Theorem capture_then_restore (rt : NumPy)
  (GurobiDirect_warm_start : World -> outcome World unit)
  (w1 w2 : World) (path : string) :
  _write_warm_start (self w1) = Some path ->
  NoDup (_pyomo_var_to_solver_var_map (self w1)).*1 ->
  NoDup (_pyomo_con_to_solver_con_map (self w1)).*1 ->
  Forall numpy_exact (_pyomo_var_to_solver_var_map (self w1)).*1 ->
  Forall numpy_exact (_pyomo_con_to_solver_con_map (self w1)).*1 ->
  (_save_c_v_basis (self w1) = true ->
   Forall (fun item => -255 <= GRB.VBasis item.2 <= 0)
     (_pyomo_var_to_solver_var_map (self w1))
   /\ Forall (fun item => GRB.CBasis item.2 ∈ constraint_basis_codes)
        (_pyomo_con_to_solver_con_map (self w1))) ->
  IsMIP (self w2) = false ->
  _read_warm_start (self w2) = Some path ->
  files w2 !! path = files (state_of (_save_warm_start rt w1)) !! path ->
  exists w2',
    _warm_start GurobiDirect_warm_start w2 = Return tt w2'
    /\ (forall nm g1 g2,
          (nm, g1) ∈ _pyomo_var_to_solver_var_map (self w1) ->
          (nm, g2) ∈ _pyomo_var_to_solver_var_map (self w2) ->
          (nm, var_transfer w1 g1 g2) ∈ _pyomo_var_to_solver_var_map (self w2'))
    /\ (forall nm c1 c2,
          (nm, c1) ∈ _pyomo_con_to_solver_con_map (self w1) ->
          (nm, c2) ∈ _pyomo_con_to_solver_con_map (self w2) ->
          (nm, const_transfer w1 c1 c2) ∈ _pyomo_con_to_solver_con_map (self w2'))
    /\ ((_pyomo_var_to_solver_var_map (self w2)).*1
          ⊆ (_pyomo_var_to_solver_var_map (self w1)).*1 ->
        (_pyomo_con_to_solver_con_map (self w2)).*1
          ⊆ (_pyomo_con_to_solver_con_map (self w1)).*1 ->
        warned w2' = warned w2).
Proof.
  intros Hpath Hndv Hndc Hexv Hexc Hcodes Hlp Hread Hfile.
  unfold var_transfer, const_transfer.
  destruct (_save_c_v_basis (self w1)) eqn:Hkind.
  - destruct (Hcodes eq_refl) as [Hvr Hcr].
    rewrite (save_basis rt w1 path Hkind Hpath Hvr) in Hfile.
    unfold written in Hfile. cbn in Hfile. rewrite lookup_insert_eq in Hfile.
    assert (Hload : pickle.load (files w2) path = inr (pickle.loads (basis_pickle w1)))
      by (unfold pickle.load; by rewrite Hfile).
    exists (warm_started (pickle.loads (basis_pickle w1)) w2).
    split; [by eapply warm_start_continuous|].
    cbn [pickle.loads basis_pickle warm_started missing_names finished with_maps
         self warned _pyomo_var_to_solver_var_map _pyomo_con_to_solver_con_map].
    split; [|split].
    + intros nm g1 g2 Hin1 Hin2. apply restored_hit; [done|].
      rewrite lookup_fmap, (loaded_index vbasis_cell _ nm g1 Hndv Hexv Hin1).
      cbn. unfold VBasis.decode, vbasis_cell. f_equal. lia.
    + intros nm c1 c2 Hin1 Hin2. apply restored_hit; [done|].
      rewrite lookup_fmap, (loaded_index cbasis_cell _ nm c1 Hndc Hexc Hin1).
      cbn. unfold CBasis.decode, cbasis_cell. f_equal.
      rewrite Forall_forall in Hcr. specialize (Hcr _ Hin1). cbn in Hcr.
      unfold constraint_basis_codes in Hcr.
      rewrite !elem_of_cons, elem_of_nil in Hcr.
      destruct Hcr as [->|[->|[]]]; reflexivity.
    + intros Hsubv Hsubc. rewrite !missed_none, app_nil_r; [done|..].
      * intros nm Hin. destruct (named_item _ nm (Hsubc _ Hin)) as [c1 Hc1].
        by rewrite lookup_fmap, (loaded_index cbasis_cell _ nm c1 Hndc Hexc Hc1).
      * intros nm Hin. destruct (named_item _ nm (Hsubv _ Hin)) as [g1 Hg1].
        by rewrite lookup_fmap, (loaded_index vbasis_cell _ nm g1 Hndv Hexv Hg1).
  - rewrite (save_start rt w1 path Hkind Hpath) in Hfile.
    unfold written in Hfile. cbn in Hfile. rewrite lookup_insert_eq in Hfile.
    assert (Hload : pickle.load (files w2) path = inr (pickle.loads (start_pickle w1)))
      by (unfold pickle.load; by rewrite Hfile).
    exists (warm_started (pickle.loads (start_pickle w1)) w2).
    split; [by eapply warm_start_continuous|].
    cbn [pickle.loads start_pickle warm_started missing_names finished with_maps
         self warned _pyomo_var_to_solver_var_map _pyomo_con_to_solver_con_map].
    split; [|split].
    + intros nm g1 g2 Hin1 Hin2. apply restored_hit; [done|].
      by rewrite (loaded_index GRB.X _ nm g1 Hndv Hexv Hin1).
    + intros nm c1 c2 Hin1 Hin2. apply restored_hit; [done|].
      by rewrite (loaded_index GRB.Pi _ nm c1 Hndc Hexc Hin1).
    + intros Hsubv Hsubc. rewrite !missed_none, app_nil_r; [done|..].
      * intros nm Hin. destruct (named_item _ nm (Hsubc _ Hin)) as [c1 Hc1].
        by rewrite (loaded_index GRB.Pi _ nm c1 Hndc Hexc Hc1).
      * intros nm Hin. destruct (named_item _ nm (Hsubv _ Hin)) as [g1 Hg1].
        by rewrite (loaded_index GRB.X _ nm g1 Hndv Hexv Hg1).
Qed.

Lemma capture_then_restore_witness :
  NoDup ["x"; "y"] /\ NoDup ["c"]
  /\ Forall numpy_exact ["x"; "y"] /\ Forall numpy_exact ["c"]
  /\ files resumed_world !! "ws.pickle"
     = files (state_of (_save_warm_start numpy_strict solved_world)) !! "ws.pickle"
  /\ exists w2',
       _warm_start GurobiDirect_no_values resumed_world = Return tt w2'
       /\ (forall nm g1 g2,
             (nm, g1) ∈ _pyomo_var_to_solver_var_map (self solved_world) ->
             (nm, g2) ∈ _pyomo_var_to_solver_var_map (self resumed_world) ->
             (nm, var_transfer solved_world g1 g2)
             ∈ _pyomo_var_to_solver_var_map (self w2'))
       /\ (forall nm c1 c2,
             (nm, c1) ∈ _pyomo_con_to_solver_con_map (self solved_world) ->
             (nm, c2) ∈ _pyomo_con_to_solver_con_map (self resumed_world) ->
             (nm, const_transfer solved_world c1 c2)
             ∈ _pyomo_con_to_solver_con_map (self w2'))
       /\ ((_pyomo_var_to_solver_var_map (self resumed_world)).*1
             ⊆ (_pyomo_var_to_solver_var_map (self solved_world)).*1 ->
           (_pyomo_con_to_solver_con_map (self resumed_world)).*1
             ⊆ (_pyomo_con_to_solver_con_map (self solved_world)).*1 ->
           warned w2' = warned resumed_world).
Proof.
  assert (Hv : NoDup ["x"; "y"]).
  { apply NoDup_cons. split; [|apply NoDup_singleton].
    rewrite elem_of_cons, elem_of_nil. intros [H|[]]. discriminate H. }
  assert (Hc : NoDup ["c"]) by apply NoDup_singleton.
  assert (Hxv : Forall numpy_exact ["x"; "y"]) by (repeat constructor).
  assert (Hxc : Forall numpy_exact ["c"]) by (repeat constructor).
  repeat (split; [assumption|]).
  split; [reflexivity|].
  apply (capture_then_restore numpy_strict GurobiDirect_no_values solved_world
           resumed_world "ws.pickle" eq_refl Hv Hc Hxv Hxc);
    [|reflexivity|reflexivity|reflexivity].
  intros _. split; repeat constructor; cbn; lia.
Defined.

Example resumed_values :
  exists w2',
    _warm_start GurobiDirect_no_values resumed_world = Return tt w2'
    /\ _pyomo_var_to_solver_var_map (self w2')
       = [("x", GRB.mkVar 0 PrimFloat.zero PrimFloat.zero);
          ("z", GRB.mkVar 0 PrimFloat.zero PrimFloat.zero);
          ("y", GRB.mkVar (-2) PrimFloat.zero PrimFloat.zero)]
    /\ _pyomo_con_to_solver_con_map (self w2')
       = [("c", GRB.mkConstr (-1) PrimFloat.zero PrimFloat.zero)]
    /\ warned w2' = [NotFoundInWarmStart (KeyError "z") 0].
Proof. eexists. repeat split; reflexivity. Qed.

(** X14: [_postsolve] after the base class.  If the base [_postsolve]
    raises, the hook raises the same and captures nothing; with no write
    path the hook is the base call; an exception of the capture is the
    hook's exception; and whenever the hook returns, it returns the base
    results, with the solver object and the warnings as the base call left
    them and, if a write path is set, with the pickle of the session as the
    base call left it at that path (the start pickle, or the basis pickle
    when the variable codes lie in -255..0). *)
Theorem postsolve_captures_the_solved_session {Results : Type}
  (GurobiDirect_postsolve : World -> outcome World Results) (rt : NumPy)
  (w : World) :
  (forall e w1,
     GurobiDirect_postsolve w = Raise e w1 ->
     _postsolve GurobiDirect_postsolve rt w = Raise e w1)
  /\ (forall r w1,
        GurobiDirect_postsolve w = Return r w1 ->
        _write_warm_start (self w1) = None ->
        _postsolve GurobiDirect_postsolve rt w = Return r w1)
  /\ (forall r w1 e w2,
        GurobiDirect_postsolve w = Return r w1 ->
        is_Some (_write_warm_start (self w1)) ->
        _save_warm_start rt w1 = Raise e w2 ->
        _postsolve GurobiDirect_postsolve rt w = Raise e w2)
  /\ (forall r w1 r' w2,
        GurobiDirect_postsolve w = Return r w1 ->
        _postsolve GurobiDirect_postsolve rt w = Return r' w2 ->
        r' = r /\ self w2 = self w1 /\ warned w2 = warned w1
        /\ forall path,
             _write_warm_start (self w1) = Some path ->
             (_save_c_v_basis (self w1) = false ->
              w2 = written path (start_pickle w1) w1)
             /\ (_save_c_v_basis (self w1) = true ->
                 Forall (fun item => -255 <= GRB.VBasis item.2 <= 0)
                   (_pyomo_var_to_solver_var_map (self w1)) ->
                 w2 = written path (basis_pickle w1) w1)).
Proof.
  split; [|split; [|split]].
  - intros e w1 Hbase. unfold _postsolve. by rewrite Hbase.
  - intros r w1 Hbase Hpath. unfold _postsolve. by rewrite Hbase, Hpath.
  - intros r w1 e w2 Hbase [path Hpath] Hsave. unfold _postsolve.
    by rewrite Hbase, Hpath, Hsave.
  - intros r w1 r' w2 Hbase. unfold _postsolve. rewrite Hbase.
    pose proof (save_warm_start_outcome rt w1) as Hout.
    destruct (_write_warm_start (self w1)) as [path|] eqn:Hpath.
    + destruct (_save_warm_start rt w1) as [[] w3|e w3] eqn:Hsave; [|done].
      intros [= <- <-]. destruct Hout as (Hself & Hwarn & _).
      split; [done|]. split; [done|]. split; [done|].
      intros path' [= <-]. split.
      * intros Hkind.
        rewrite (save_start rt w1 path Hkind Hpath) in Hsave. by injection Hsave.
      * intros Hkind Hrange.
        rewrite (save_basis rt w1 path Hkind Hpath Hrange) in Hsave.
        by injection Hsave.
    + intros [= <- <-]. by repeat split.
Qed.

(** ** Variable codes outside -255..0 *)

Section overflow.
Context {R V G : Type}.
Variable val_dtype : R -> exn + V.
Variable getAttr : G -> R.

Lemma save_all_app (l1 l2 : list (string * G)) : forall (s : PicklableData.t V),
  save_all (PicklableData.save_component val_dtype) getAttr (l1 ++ l2) s
  = match save_all (PicklableData.save_component val_dtype) getAttr l1 s with
    | Return _ s1 => save_all (PicklableData.save_component val_dtype) getAttr l2 s1
    | Raise e s1 => Raise e s1
    end.
Proof.
  induction l1 as [|[nm g] l1 IH]; intros s; [done|]. cbn [app save_all].
  destruct (PicklableData.save_component val_dtype s nm (getAttr g)) as [[] s1|e s1];
    [apply IH|done].
Qed.

Lemma first_failure {A} (P : A -> Prop) `{forall x, Decision (P x)} (l : list A) :
  ~ Forall P l -> exists pre x post, l = pre ++ x :: post /\ Forall P pre /\ ~ P x.
Proof.
  induction l as [|x l IH]; intros Hnot; [by destruct Hnot|].
  destruct (decide (P x)) as [Hx|Hx].
  - destruct IH as (pre & y & post & -> & Hpre & Hy).
    { intros Hl. apply Hnot. by constructor. }
    exists (x :: pre), y, post. repeat split; [by constructor|done].
  - exists [], x, l. by repeat split.
Qed.

(** The loop stops at the first item whose value the dtype rejects. *)
Lemma save_all_rejects (cell : G -> V) (uninit : nat -> V)
  (pre post : list (string * G)) (x : string * G) (e : exn) :
  Forall (fun item => val_dtype (getAttr item.2) = inr (cell item.2)) pre ->
  val_dtype (getAttr x.2) = inl e ->
  exists s',
    save_all (PicklableData.save_component val_dtype) getAttr (pre ++ x :: post)
      (PicklableData.__init__ uninit (length (pre ++ x :: post))) = Raise e s'.
Proof.
  intros Hpre Hx. rewrite save_all_app.
  rewrite (save_all_init val_dtype getAttr uninit _ pre (cell <$> pre.*2));
    [|list_len|by apply converted_fmap].
  destruct x as [nm g]. cbn [save_all]. cbn in Hx.
  unfold PicklableData.save_component. cbn [PicklableData.next_index
    PicklableData._names PicklableData._vals].
  rewrite !decide_True, Hx; [by eexists|..].
  - rewrite length_app, !length_fmap, length_drop. unfold np.empty.
    rewrite length_fmap, length_seq, length_app. cbn. lia.
  - rewrite length_app, length_fmap, length_replicate, length_app. cbn. lia.
Qed.

End overflow.

(** X15: a NumPy that rejects out-of-range integers makes a basis
    capture fail on any variable code outside -255..0: the capture raises
    [OverflowError], before any file is opened, and the session and the
    files are as before. *)
Theorem strict_capture_rejects_out_of_range (rt : NumPy) (w : World) :
  strict_cast rt = true ->
  _save_c_v_basis (self w) = true ->
  ~ Forall (fun item => -255 <= GRB.VBasis item.2 <= 0)
      (_pyomo_var_to_solver_var_map (self w)) ->
  _save_warm_start rt w = Raise OverflowError w.
Proof.
  intros Hstrict Hkind Hnot.
  apply first_failure in Hnot as (pre & x & post & Hvars & Hpre & Hx);
    [|intros item; apply _].
  unfold _save_warm_start, collect. rewrite Hkind, Hvars.
  change (VBasis.save_component rt)
    with (PicklableData.save_component (VBasis.encode rt)).
  unfold VBasis.__init__.
  destruct (save_all_rejects (VBasis.encode rt) GRB.VBasis vbasis_cell
              (empty_uint8 rt) pre post x OverflowError) as [s' ->]; [| |done].
  - eapply Forall_impl; [exact Hpre|]. intros item. apply vbasis_in_range.
  - unfold VBasis.encode, np.uint8. rewrite decide_False by lia. by rewrite Hstrict.
Qed.

Lemma strict_capture_rejects_out_of_range_witness :
  ~ Forall (fun item => -255 <= GRB.VBasis item.2 <= 0)
      (_pyomo_var_to_solver_var_map (self positive_code_world))
  /\ _save_warm_start numpy_strict positive_code_world
     = Raise OverflowError positive_code_world.
Proof.
  assert (H : ~ Forall (fun item => -255 <= GRB.VBasis item.2 <= 0)
                (_pyomo_var_to_solver_var_map (self positive_code_world))).
  { intros Hall. apply Forall_cons in Hall as [_ Hall].
    apply Forall_cons in Hall as [Hy _]. cbn in Hy. lia. }
  split; [exact H|].
  exact (strict_capture_rejects_out_of_range numpy_strict positive_code_world
           eq_refl eq_refl H).
Defined.

(** X16: a NumPy that wraps out-of-range integers rejects no code in
    a basis capture.  For variable codes between -2^31 and 2^31, whenever
    the capture returns, the byte pickled for each variable is its negated
    code modulo 256 (the negated code itself when the code lies in -255..0,
    another byte otherwise), and each constraint holds the truth value of
    its code. *)
Theorem wrapping_capture_stores_wrapped_bytes (rt : NumPy) (w w' : World)
  (path : string) :
  strict_cast rt = false ->
  _save_c_v_basis (self w) = true ->
  _write_warm_start (self w) = Some path ->
  Forall (fun item => - 2 ^ 31 < GRB.VBasis item.2 < 2 ^ 31)
    (_pyomo_var_to_solver_var_map (self w)) ->
  _save_warm_start rt w = Return tt w' ->
  files w' !! path
  = Some (pickle.Pickle
            (pickle.PCVBasis
               (np.array (_pyomo_var_to_solver_var_map (self w)).*1,
                (fun v => (- GRB.VBasis v) mod 256)
                  <$> (_pyomo_var_to_solver_var_map (self w)).*2)
               (np.array (_pyomo_con_to_solver_con_map (self w)).*1,
                (fun c => negb (GRB.CBasis c =? 0)%Z)
                  <$> (_pyomo_con_to_solver_con_map (self w)).*2)))
  /\ Forall (fun item =>
               (- GRB.VBasis item.2) mod 256 = - GRB.VBasis item.2
               <-> -255 <= GRB.VBasis item.2 <= 0)
       (_pyomo_var_to_solver_var_map (self w)).
Proof.
  intros Hwrap Hkind Hpath _ Hrun. split.
  - revert Hrun. unfold _save_warm_start, collect. rewrite Hkind, Hpath.
    change (VBasis.save_component rt)
      with (PicklableData.save_component (VBasis.encode rt)).
    change CBasis.save_component with (PicklableData.save_component np.bool).
    unfold VBasis.__init__, CBasis.__init__.
    rewrite (save_all_exact (VBasis.encode rt) GRB.VBasis
               (fun v => (- GRB.VBasis v) mod 256)).
    2:{ apply Forall_forall. intros item _.
        unfold VBasis.encode, np.uint8. rewrite Hwrap.
        case_decide; f_equal; [rewrite Z.mod_small by lia|f_equal]; lia. }
    rewrite (save_all_exact np.bool GRB.CBasis cbasis_cell) by by apply Forall_true.
    unfold pickle.dumps. rewrite !getstate_exact.
    intros [= <-]. cbn. by rewrite lookup_insert_eq.
  - apply Forall_forall. intros item _.
    pose proof (Z.mod_pos_bound (- GRB.VBasis item.2) 256 eq_refl) as Hmod.
    split; [lia|]. intros Hrange. apply Z.mod_small. lia.
Qed.

Lemma wrapping_capture_stores_wrapped_bytes_witness :
  Forall (fun item => - 2 ^ 31 < GRB.VBasis item.2 < 2 ^ 31)
    (_pyomo_var_to_solver_var_map (self positive_code_world))
  /\ files (written "ws.pickle" (pickle.PCVBasis (["x"; "y"], [1; 255]) ([], []))
              positive_code_world) !! "ws.pickle"
     = Some (pickle.Pickle (pickle.PCVBasis (["x"; "y"], [1; 255]) ([], []))).
Proof.
  assert (H : Forall (fun item => - 2 ^ 31 < GRB.VBasis item.2 < 2 ^ 31)
                (_pyomo_var_to_solver_var_map (self positive_code_world)))
    by (repeat constructor; cbn; lia).
  split; [exact H|].
  exact (proj1 (wrapping_capture_stores_wrapped_bytes numpy_wrapping
                  positive_code_world
                  (written "ws.pickle"
                     (pickle.PCVBasis (["x"; "y"], [1; 255]) ([], []))
                     positive_code_world)
                  "ws.pickle" eq_refl eq_refl eq_refl H eq_refl)).
Defined.

(** ** Names that end in a NUL character *)

Lemma rstrip_nul_idempotent (s : string) :
  np.rstrip_nul (np.rstrip_nul s) = np.rstrip_nul s.
Proof.
  induction s as [|c s IH]; [done|]. cbn [np.rstrip_nul].
  destruct (np.rstrip_nul s) as [|c1 r] eqn:E.
  - destruct (Ascii.eqb c Ascii.zero) eqn:Hc; [done|].
    cbn [np.rstrip_nul]. by rewrite Hc.
  - cbn [np.rstrip_nul]. cbn [np.rstrip_nul] in IH. by rewrite IH.
Qed.

(** X17: a name that ends in a NUL character does not survive the
    pickle.  Whatever was saved, the store rebuilt from the pickled state
    holds no name ending in NUL, so looking up such a name in it raises
    [KeyError] (and a restore treats the component as missing). *)
Theorem nul_terminated_name_is_lost {V : Type} (s : PicklableData.t V)
  (ws : list Warning) (st : PicklableData.state V) (k : string) :
  PicklableData.__getstate__ s = inr (ws, st) ->
  np.rstrip_nul k <> k ->
  exists s',
    PicklableData.get_component (PicklableData.__setstate__ st) k
    = Raise (KeyError k) s'.
Proof.
  intros Hst Hk. unfold PicklableData.__getstate__ in Hst.
  destruct (PicklableData.next_index s) as [i|]; [|done].
  destruct (PicklableData.n s) as [m|]; [|done].
  injection Hst as _ <-.
  assert (Habsent : k ∉ np.array (PicklableData._names s)).
  { unfold np.array. intros Hin. apply list_elem_of_fmap in Hin as (nm & -> & _).
    apply Hk. apply rstrip_nul_idempotent. }
  rewrite get_component_served. unfold served, PicklableData.getitem.
  cbn [PicklableData.__setstate__ PicklableData._dict fst snd].
  pose proof (dict_of_absent
                (zip (np.array (PicklableData._names s)) (PicklableData._vals s))
                ∅ k (zip_names_absent _ _ _ Habsent)) as H.
  unfold dict_of in H. unfold PicklableData._get_dict.
  cbn [PicklableData.__setstate__ PicklableData._names PicklableData._vals fst snd].
  rewrite H, lookup_empty. by eexists.
Qed.

Lemma nul_terminated_name_is_lost_witness :
  np.rstrip_nul (String "a" (String Ascii.zero EmptyString))
  <> String "a" (String Ascii.zero EmptyString)
  /\ exists s',
       PicklableData.get_component
         (PicklableData.__setstate__ (V := Z) (["a"], [1]))
         (String "a" (String Ascii.zero EmptyString))
       = Raise (KeyError (String "a" (String Ascii.zero EmptyString))) s'.
Proof.
  assert (H : np.rstrip_nul (String "a" (String Ascii.zero EmptyString))
              <> String "a" (String Ascii.zero EmptyString)) by discriminate.
  split; [exact H|].
  exact (nul_terminated_name_is_lost
           (PicklableData.mk [String "a" (String Ascii.zero EmptyString)] [1] None
              (Some 1%nat) (Some 1%nat))
           [] (["a"], [1]) (String "a" (String Ascii.zero EmptyString)) eq_refl H).
Defined.
